(** * SampleHeap: the sampling layer of src/include/sampleheap.hpp

    A shallow embedding of the [SampleHeap] class template and the
    properties of its trigger path.  The class is a heap layer: it wraps
    the [malloc], [free] and [memalign] of its [SuperHeap], feeds the
    delivered sizes to two [Sampler]s and, when one of them fires, writes
    one line to the sample file and raises a signal.

    Conventions of the embedding:
    - [size_t], [uint64_t] and the counters are [Z] in [0, 2^64), with the
      wrap-around of the unsigned arithmetic written out ([wrap64]);
    - a pointer is its address, [nullptr] is [0];
    - the object, the function-local statics ([mallocTriggered],
      [freeTriggered], the sample file) and the process environment the
      code reads are the fields of one [State], threaded by a state and
      failure monad; assertions are compiled in (no [NDEBUG]) and a failed
      [assert] aborts ([AssertionFailed]);
    - calls come one after the other, from one thread of control;
    - the line given to [snprintf_] is kept as the tuple of its arguments
      ([SampleLine]); the [%f] argument is computed in IEEE binary32, as the
      C expression is. *)

From Stdlib Require Import ZArith List String Ascii Bool Lia SpecFloat QArith Qabs.
Import ListNotations.
Open Scope Z_scope.

(** ** Machine arithmetic *)

Definition wrap64 (z : Z) : Z := z mod 2 ^ 64.

Definition ptr := Z.
Definition nullptr : ptr := 0.

(** [float] of the C code: IEEE binary32, round to nearest even. *)
Module Float32.
Definition prec : Z := 24.
Definition emax : Z := 128.

(** [(float) n] for an unsigned 64-bit [n]. *)
Definition of_uint64 (n : Z) : spec_float := binary_normalize prec emax n 0 false.

Definition div (x y : spec_float) : spec_float := SFdiv prec emax x y.

(** The rational a finite float stands for. *)
Definition to_Q (x : spec_float) : option Q :=
  match x with
  | S754_zero _ => Some 0%Q
  | S754_finite s m e =>
      let v := (inject_Z (Z.pos m) * Qpower 2 e)%Q in
      Some (if s then Qopp v else v)
  | S754_infinity _ | S754_nan => None
  end.
End Float32.

(** ** Collaborators

    [sampler.hpp] and the super heap are template parameters of the class;
    they are taken as interfaces. *)

(** [Sampler<N>]: [sample] returns [0] or the weight of the sample that was
    just triggered, [unsample] rolls accumulated bytes back. *)
Class Sampler (S : Type) := {
  sample : S -> Z -> Z * S;
  unsample : S -> Z -> S
}.

(** [SuperHeap]: the allocator under the layer; a failed allocation
    returns [nullptr]. *)
Class SuperHeap (H : Type) := {
  super_malloc : H -> Z -> ptr * H;
  super_memalign : H -> Z -> Z -> ptr * H;
  super_free : H -> ptr -> H;
  super_getSize : H -> ptr -> Z
}.

(** What the layer takes from its build and from its process: the macro
    [SCALENE_DISABLE_SIGNALS] of [common.hpp] and the value of
    [getpid ()]. *)
Class Environment := {
  SCALENE_DISABLE_SIGNALS : bool;
  getpid : Z
}.

(** ** Signals and sample lines *)

Inductive AllocSignal := MallocSignal | FreeSignal.

(** [MallocSignal = SIGXCPU], [FreeSignal = SIGXFSZ]. *)
Definition signo (s : AllocSignal) : Z :=
  match s with MallocSignal => 24 | FreeSignal => 25 end.

Definition AllocSignal_eqb (a b : AllocSignal) : bool :=
  match a, b with
  | MallocSignal, MallocSignal | FreeSignal, FreeSignal => true
  | _, _ => false
  end.

(** What [whereInPython] hands back through its three reference
    parameters when it succeeds. *)
Record Location := { filename : string; lineno : Z; bytei : Z }.

(** The arguments of the format
    ["%c,%lu,%lu,%f,%d,%p,%s,%d,%d\n\n"] in [writeCount].  The text written
    is their formatting by [snprintf_] into a buffer of
    [SampleFile::MAX_BUFSIZE] characters: the fields up to the address are of
    bounded length and always reach the file; a long file name can cut the
    file name and the two fields after it, which the record does not
    show. *)
Record SampleLine := {
  line_kind : ascii;
  line_seq : Z;
  line_count : Z;
  line_fraction : spec_float;
  line_pid : Z;
  line_address : ptr;
  line_filename : string;
  line_lineno : Z;
  line_bytei : Z
}.

(** ** The state *)

Section SampleHeap.

Context {MS FS H : Type}.
Context {mallocSamplerOps : Sampler MS} {freeSamplerOps : Sampler FS}
        {superOps : SuperHeap H}.

Context {env : Environment}.

Record State := {
  (* the SuperHeap base object *)
  super : H;
  (* the members of SampleHeap *)
  _mallocSampler : MS;
  _freeSampler : FS;
  _pythonCount : Z;
  _cCount : Z;
  _lastMallocTrigger : ptr;
  _freedLastMallocTrigger : bool;
  (* function-local statics *)
  mallocTriggered : Z;
  freeTriggered : Z;
  sampleFile : list SampleLine;
  (* the rest of the process *)
  p_whereInPython : option (unit -> option Location);
  inMalloc : bool;
  raised : list AllocSignal
}.

Definition set_super v (s : State) : State :=
  {| super := v; _mallocSampler := _mallocSampler s;
     _freeSampler := _freeSampler s; _pythonCount := _pythonCount s;
     _cCount := _cCount s; _lastMallocTrigger := _lastMallocTrigger s;
     _freedLastMallocTrigger := _freedLastMallocTrigger s;
     mallocTriggered := mallocTriggered s; freeTriggered := freeTriggered s;
     sampleFile := sampleFile s; p_whereInPython := p_whereInPython s;
     inMalloc := inMalloc s; raised := raised s |}.

Definition set_mallocSampler v (s : State) : State :=
  {| super := super s; _mallocSampler := v;
     _freeSampler := _freeSampler s; _pythonCount := _pythonCount s;
     _cCount := _cCount s; _lastMallocTrigger := _lastMallocTrigger s;
     _freedLastMallocTrigger := _freedLastMallocTrigger s;
     mallocTriggered := mallocTriggered s; freeTriggered := freeTriggered s;
     sampleFile := sampleFile s; p_whereInPython := p_whereInPython s;
     inMalloc := inMalloc s; raised := raised s |}.

Definition set_freeSampler v (s : State) : State :=
  {| super := super s; _mallocSampler := _mallocSampler s;
     _freeSampler := v; _pythonCount := _pythonCount s;
     _cCount := _cCount s; _lastMallocTrigger := _lastMallocTrigger s;
     _freedLastMallocTrigger := _freedLastMallocTrigger s;
     mallocTriggered := mallocTriggered s; freeTriggered := freeTriggered s;
     sampleFile := sampleFile s; p_whereInPython := p_whereInPython s;
     inMalloc := inMalloc s; raised := raised s |}.

Definition set_pythonCount v (s : State) : State :=
  {| super := super s; _mallocSampler := _mallocSampler s;
     _freeSampler := _freeSampler s; _pythonCount := v;
     _cCount := _cCount s; _lastMallocTrigger := _lastMallocTrigger s;
     _freedLastMallocTrigger := _freedLastMallocTrigger s;
     mallocTriggered := mallocTriggered s; freeTriggered := freeTriggered s;
     sampleFile := sampleFile s; p_whereInPython := p_whereInPython s;
     inMalloc := inMalloc s; raised := raised s |}.

Definition set_cCount v (s : State) : State :=
  {| super := super s; _mallocSampler := _mallocSampler s;
     _freeSampler := _freeSampler s; _pythonCount := _pythonCount s;
     _cCount := v; _lastMallocTrigger := _lastMallocTrigger s;
     _freedLastMallocTrigger := _freedLastMallocTrigger s;
     mallocTriggered := mallocTriggered s; freeTriggered := freeTriggered s;
     sampleFile := sampleFile s; p_whereInPython := p_whereInPython s;
     inMalloc := inMalloc s; raised := raised s |}.

Definition set_lastMallocTrigger v (s : State) : State :=
  {| super := super s; _mallocSampler := _mallocSampler s;
     _freeSampler := _freeSampler s; _pythonCount := _pythonCount s;
     _cCount := _cCount s; _lastMallocTrigger := v;
     _freedLastMallocTrigger := _freedLastMallocTrigger s;
     mallocTriggered := mallocTriggered s; freeTriggered := freeTriggered s;
     sampleFile := sampleFile s; p_whereInPython := p_whereInPython s;
     inMalloc := inMalloc s; raised := raised s |}.

Definition set_freedLastMallocTrigger v (s : State) : State :=
  {| super := super s; _mallocSampler := _mallocSampler s;
     _freeSampler := _freeSampler s; _pythonCount := _pythonCount s;
     _cCount := _cCount s; _lastMallocTrigger := _lastMallocTrigger s;
     _freedLastMallocTrigger := v;
     mallocTriggered := mallocTriggered s; freeTriggered := freeTriggered s;
     sampleFile := sampleFile s; p_whereInPython := p_whereInPython s;
     inMalloc := inMalloc s; raised := raised s |}.

Definition set_mallocTriggered v (s : State) : State :=
  {| super := super s; _mallocSampler := _mallocSampler s;
     _freeSampler := _freeSampler s; _pythonCount := _pythonCount s;
     _cCount := _cCount s; _lastMallocTrigger := _lastMallocTrigger s;
     _freedLastMallocTrigger := _freedLastMallocTrigger s;
     mallocTriggered := v; freeTriggered := freeTriggered s;
     sampleFile := sampleFile s; p_whereInPython := p_whereInPython s;
     inMalloc := inMalloc s; raised := raised s |}.

Definition set_freeTriggered v (s : State) : State :=
  {| super := super s; _mallocSampler := _mallocSampler s;
     _freeSampler := _freeSampler s; _pythonCount := _pythonCount s;
     _cCount := _cCount s; _lastMallocTrigger := _lastMallocTrigger s;
     _freedLastMallocTrigger := _freedLastMallocTrigger s;
     mallocTriggered := mallocTriggered s; freeTriggered := v;
     sampleFile := sampleFile s; p_whereInPython := p_whereInPython s;
     inMalloc := inMalloc s; raised := raised s |}.

Definition set_sampleFile v (s : State) : State :=
  {| super := super s; _mallocSampler := _mallocSampler s;
     _freeSampler := _freeSampler s; _pythonCount := _pythonCount s;
     _cCount := _cCount s; _lastMallocTrigger := _lastMallocTrigger s;
     _freedLastMallocTrigger := _freedLastMallocTrigger s;
     mallocTriggered := mallocTriggered s; freeTriggered := freeTriggered s;
     sampleFile := v; p_whereInPython := p_whereInPython s;
     inMalloc := inMalloc s; raised := raised s |}.

Definition set_inMalloc v (s : State) : State :=
  {| super := super s; _mallocSampler := _mallocSampler s;
     _freeSampler := _freeSampler s; _pythonCount := _pythonCount s;
     _cCount := _cCount s; _lastMallocTrigger := _lastMallocTrigger s;
     _freedLastMallocTrigger := _freedLastMallocTrigger s;
     mallocTriggered := mallocTriggered s; freeTriggered := freeTriggered s;
     sampleFile := sampleFile s; p_whereInPython := p_whereInPython s;
     inMalloc := v; raised := raised s |}.

Definition set_raised v (s : State) : State :=
  {| super := super s; _mallocSampler := _mallocSampler s;
     _freeSampler := _freeSampler s; _pythonCount := _pythonCount s;
     _cCount := _cCount s; _lastMallocTrigger := _lastMallocTrigger s;
     _freedLastMallocTrigger := _freedLastMallocTrigger s;
     mallocTriggered := mallocTriggered s; freeTriggered := freeTriggered s;
     sampleFile := sampleFile s; p_whereInPython := p_whereInPython s;
     inMalloc := inMalloc s; raised := v |}.

(** ** The monad of the member functions *)

Inductive outcome (A : Type) : Type :=
| Done (a : A) (s : State)
| AssertionFailed.
Arguments Done {A} a s.
Arguments AssertionFailed {A}.

Definition M (A : Type) : Type := State -> outcome A.

Definition ret {A} (a : A) : M A := fun s => Done a s.

Definition bind {A B} (m : M A) (k : A -> M B) : M B :=
  fun s => match m s with
           | Done a s' => k a s'
           | AssertionFailed => AssertionFailed
           end.

Definition gets {A} (f : State -> A) : M A := fun s => Done (f s) s.
Definition modify (f : State -> State) : M unit := fun s => Done tt (f s).
Definition assert (b : bool) : M unit :=
  fun s => if b then Done tt s else AssertionFailed.
Definition when (b : bool) (m : M unit) : M unit := if b then m else ret tt.

Notation "x <- m ;; k" := (bind m (fun x => k))
  (at level 61, m at next level, right associativity).
Notation "m ;; k" := (bind m (fun _ => k))
  (at level 61, right associativity).

(** ** Modelled collaborators *)

(** Modelled from the spec: [MallocRecursionGuard] of
    [mallocrecursionguard.hpp], which is not part of the sources.  The
    guard is a scoped reentrancy marker: its constructor marks the thread
    and remembers whether it was marked already ([wasInMalloc]); its
    destructor restores the marker to its prior state on every exit
    path. *)
Definition MallocRecursionGuard : M bool :=
  was <- gets inMalloc ;;
  modify (set_inMalloc true) ;;
  ret was.

Definition MallocRecursionGuard_release (wasInMalloc : bool) : M unit :=
  modify (set_inMalloc wasInMalloc).

(** [getSampleFile().writeToFile(buf)]: the channel is append-only. *)
Definition writeToFile (buf : SampleLine) : M unit :=
  modify (fun s => set_sampleFile (sampleFile s ++ [buf]) s).

(** [raise(sig)], compiled in unless [SCALENE_DISABLE_SIGNALS]. *)
Definition raise (sig : AllocSignal) : M unit :=
  when (negb SCALENE_DISABLE_SIGNALS)
       (modify (fun s => set_raised (raised s ++ [sig]) s)).

(** ** The member functions *)

Definition writeCount (sig : AllocSignal) (count : Z) (p : ptr)
           (loc : Location) : M unit :=
  pc <- gets _pythonCount ;;
  when (pc =? 0) (modify (set_pythonCount 1)) ;;   (* prevent 0/0 *)
  s <- gets id ;;
  let buf :=
    {| line_kind :=
         if AllocSignal_eqb sig MallocSignal then "M"%char
         else if _freedLastMallocTrigger s then "f"%char else "F"%char;
       line_seq := wrap64 (mallocTriggered s + freeTriggered s);
       line_count := count;
       line_fraction :=
         Float32.div (Float32.of_uint64 (_pythonCount s))
                     (Float32.of_uint64 (wrap64 (_pythonCount s + _cCount s)));
       line_pid := getpid;
       line_address :=
         if _freedLastMallocTrigger s then _lastMallocTrigger s else p;
       line_filename := filename loc;
       line_lineno := lineno loc;
       line_bytei := bytei loc |} in
  (* Ensure we don't report last-malloc-freed multiple times. *)
  modify (set_freedLastMallocTrigger false) ;;
  writeToFile buf.

Definition process_malloc (sampleMalloc : Z) (p : ptr) : M unit :=
  where_ <- gets p_whereInPython ;;
  match where_ with
  | None => ret tt
  | Some whereInPython =>
      match whereInPython tt with
      | None => ret tt
      | Some loc =>
          writeCount MallocSignal sampleMalloc p loc ;;
          raise MallocSignal ;;
          modify (set_lastMallocTrigger p) ;;
          modify (set_freedLastMallocTrigger false) ;;
          modify (set_pythonCount 0) ;;
          modify (set_cCount 0) ;;
          modify (fun s => set_mallocTriggered (wrap64 (mallocTriggered s + 1)) s)
      end
  end.

Definition register_malloc (realSize : Z) (p : ptr)
           (inPythonAllocator : bool) : M unit :=
  assert (negb (realSize =? 0)) ;;
  ms <- gets _mallocSampler ;;
  let (sampleMalloc, ms') := sample ms realSize in
  modify (set_mallocSampler ms') ;;
  (if inPythonAllocator
   then modify (fun s => set_pythonCount (wrap64 (_pythonCount s + realSize)) s)
   else modify (fun s => set_cCount (wrap64 (_cCount s + realSize)) s)) ;;
  when (negb (sampleMalloc =? 0)) (process_malloc sampleMalloc p).

Definition malloc (sz : Z) : M ptr :=
  g <- MallocRecursionGuard ;;
  h <- gets super ;;
  let (p, h') := super_malloc h sz in
  modify (set_super h') ;;
  if p =? nullptr then
    MallocRecursionGuard_release g ;;
    ret nullptr
  else
    when (negb g)
         (realSize <- gets (fun s => super_getSize (super s) p) ;;
          when (0 <? realSize)
               (register_malloc realSize p false)) ;; (* false -> invoked from C/C++ *)
    MallocRecursionGuard_release g ;;
    ret p.

Definition process_free (sampleFree : Z) : M unit :=
  where_ <- gets p_whereInPython ;;
  match where_ with
  | None => ret tt
  | Some whereInPython =>
      match whereInPython tt with
      | None => ret tt
      | Some loc =>
          writeCount FreeSignal sampleFree nullptr loc ;;
          raise MallocSignal ;;   (* was FreeSignal *)
          modify (fun s => set_freeTriggered (wrap64 (freeTriggered s + 1)) s)
      end
  end.

Definition register_free (realSize : Z) (p : ptr) : M unit :=
  modify (fun s => set_mallocSampler (unsample (_mallocSampler s) realSize) s) ;;
  fs <- gets _freeSampler ;;
  let (sampleFree, fs') := sample fs realSize in
  modify (set_freeSampler fs') ;;
  last <- gets _lastMallocTrigger ;;
  when (negb (p =? nullptr) && (p =? last))
       (modify (set_freedLastMallocTrigger true)) ;;
  when (negb (sampleFree =? 0)) (process_free sampleFree).

Definition free (p : ptr) : M unit :=
  g <- MallocRecursionGuard ;;
  if p =? nullptr then
    MallocRecursionGuard_release g
  else
    when (negb g)
         (realSize <- gets (fun s => super_getSize (super s) p) ;;
          register_free realSize p) ;;
    modify (fun s => set_super (super_free (super s) p) s) ;;
    MallocRecursionGuard_release g.

Definition memalign (alignment sz : Z) : M ptr :=
  g <- MallocRecursionGuard ;;
  h <- gets super ;;
  let (p, h') := super_memalign h alignment sz in
  modify (set_super h') ;;
  if p =? nullptr then
    MallocRecursionGuard_release g ;;
    ret nullptr
  else
    when (negb g)
         (realSize <- gets (fun s => super_getSize (super s) p) ;;
          assert (sz <=? realSize) ;;
          assert ((sz <? 16) || (realSize <=? wrap64 (2 * sz))) ;;
          register_malloc realSize p true) ;;   (* inPythonAllocator = true *)
    MallocRecursionGuard_release g ;;
    ret p.

End SampleHeap.

Arguments Done {MS FS H A} a s.
Arguments AssertionFailed {MS FS H A}.

(** ** Sequences of calls

    What a program does to the layer: a sequence of calls of its three
    entry points. *)

Inductive call :=
| Malloc (sz : Z)
| Free (p : ptr)
| Memalign (alignment sz : Z).

Section Calls.

Context {MS FS H : Type}.
Context {mallocSamplerOps : Sampler MS} {freeSamplerOps : Sampler FS}
        {superOps : SuperHeap H} {env : Environment}.

Definition step (c : call) : M (MS := MS) (FS := FS) (H := H) unit :=
  match c with
  | Malloc sz => bind (malloc sz) (fun _ => ret tt)
  | Free p => free p
  | Memalign alignment sz => bind (memalign alignment sz) (fun _ => ret tt)
  end.

Fixpoint run (cs : list call) : M (MS := MS) (FS := FS) (H := H) unit :=
  match cs with
  | [] => ret tt
  | c :: cs' => bind (step c) (fun _ => run cs')
  end.

(** The state a fresh process starts in: the constructor's member
    initialisers and zero-initialised statics. *)
Definition fresh (h : H) (ms : MS) (fs : FS)
           (where_ : option (unit -> option Location)) : State :=
  {| super := h; _mallocSampler := ms; _freeSampler := fs;
     _pythonCount := 0; _cCount := 0;
     _lastMallocTrigger := nullptr; _freedLastMallocTrigger := false;
     mallocTriggered := 0; freeTriggered := 0; sampleFile := [];
     p_whereInPython := where_; inMalloc := false; raised := [] |}.

(** Whether the call frees the block the last malloc trigger was about:
    the test of [register_free]. *)
Definition frees_last_trigger (c : call)
           (s : State (MS := MS) (FS := FS) (H := H)) : bool :=
  match c with
  | Free p => negb (p =? nullptr) && (p =? _lastMallocTrigger s)
  | _ => false
  end.

(** How many calls of a run do so, each judged in the state it starts
    in. *)
Fixpoint matching_frees (cs : list call)
         (s : State (MS := MS) (FS := FS) (H := H)) : nat :=
  match cs with
  | [] => O
  | c :: cs' =>
      match step c s with
      | Done _ s' =>
          ((if frees_last_trigger c s then 1 else 0) + matching_frees cs' s')%nat
      | AssertionFailed => O
      end
  end.

End Calls.

(** The lines of kind [f] in a sample file. *)
Definition f_lines (ls : list SampleLine) : nat :=
  List.length (filter (fun l => Ascii.eqb (line_kind l) "f"%char) ls).

(** ** Stand-ins for the collaborators

    Concrete samplers, a concrete allocator and a concrete resolver, to run
    the layer on. *)

(** A sampler that fires once every [rate] accumulated bytes; its state is
    the number of bytes accumulated since it last fired. *)
Definition RateSampler (rate : Z) : Sampler Z :=
  {| sample := fun acc sz =>
       if rate <=? acc + sz then (acc + sz, 0) else (0, acc + sz);
     unsample := fun acc sz => Z.max 0 (acc - sz) |}.

(** An allocator that hands out blocks of a multiple of [granule] bytes,
    reuses the block freed last, and fails on requests above [limit]. *)
Record ArenaState := {
  live : list (ptr * Z);
  free_list : list ptr;
  brk : ptr
}.

Definition arena_deliver (granule sz : Z) : Z :=
  Z.max granule (granule * ((sz + granule - 1) / granule)).

Definition arena_malloc (granule limit : Z) (h : ArenaState) (sz : Z)
  : ptr * ArenaState :=
  if limit <? sz then (nullptr, h)
  else
    match free_list h with
    | p :: fl =>
        (p, {| live := (p, arena_deliver granule sz) :: live h;
               free_list := fl; brk := brk h |})
    | [] =>
        (brk h, {| live := (brk h, arena_deliver granule sz) :: live h;
                   free_list := []; brk := brk h + 4096 |})
    end.

Definition arena_getSize (h : ArenaState) (p : ptr) : Z :=
  match find (fun b => fst b =? p) (live h) with
  | Some b => snd b
  | None => 0
  end.

Definition arena_free (h : ArenaState) (p : ptr) : ArenaState :=
  {| live := filter (fun b => negb (fst b =? p)) (live h);
     free_list := p :: free_list h;
     brk := brk h |}.

Definition Arena (granule limit : Z) : SuperHeap ArenaState :=
  {| super_malloc := arena_malloc granule limit;
     super_memalign := fun h _ sz => arena_malloc granule limit h sz;
     super_free := arena_free;
     super_getSize := arena_getSize |}.

Definition arena0 : ArenaState :=
  {| live := []; free_list := []; brk := 4096 |}.

(** A resolver that always finds the interpreter at the same place. *)
Definition here : Location :=
  {| filename := "test.py"; lineno := 7; bytei := 12 |}.

Definition unix : Environment :=
  {| SCALENE_DISABLE_SIGNALS := false; getpid := 4242 |}.

(** Reading a run: the lines it left in the sample file, and of each line
    the kind, the sequence number and the reported address. *)
Definition lines_of {MS FS H A : Type} (o : outcome (MS := MS) (FS := FS) (H := H) A)
  : list SampleLine :=
  match o with
  | Done _ s => sampleFile s
  | AssertionFailed => []
  end.

Definition summary (l : SampleLine) : ascii * Z * ptr :=
  (line_kind l, line_seq l, line_address l).

(** A process to run calls in: a malloc sampler firing every [rate] bytes,
    a free sampler firing on every block, the arena with blocks of a multiple
    of [granule] bytes, the resolver [whereInPython], signals compiled in. *)
Definition demo_fresh (whereInPython : option (unit -> option Location))
  : State (MS := Z) (FS := Z) (H := ArenaState) :=
  fresh arena0 0 0 whereInPython.

Definition demo_run (rate granule : Z) (cs : list call)
  : outcome (MS := Z) (FS := Z) (H := ArenaState) unit :=
  run (mallocSamplerOps := RateSampler rate) (freeSamplerOps := RateSampler 1)
      (superOps := Arena granule (2 ^ 32)) (env := unix)
      cs (demo_fresh (Some (fun _ => Some here))).

Definition demo_step (rate granule : Z) (c : call)
  : M (MS := Z) (FS := Z) (H := ArenaState) unit :=
  step (mallocSamplerOps := RateSampler rate) (freeSamplerOps := RateSampler 1)
       (superOps := Arena granule (2 ^ 32)) (env := unix) c.

Definition demo_malloc (rate granule : Z) (sz : Z)
  : M (MS := Z) (FS := Z) (H := ArenaState) ptr :=
  malloc (mallocSamplerOps := RateSampler rate)
         (superOps := Arena granule (2 ^ 32)) (env := unix) sz.

Definition demo_memalign (rate granule : Z) (alignment sz : Z)
  : M (MS := Z) (FS := Z) (H := ArenaState) ptr :=
  memalign (mallocSamplerOps := RateSampler rate)
           (superOps := Arena granule (2 ^ 32)) (env := unix) alignment sz.

Definition demo_free (rate granule : Z) (p : ptr)
  : M (MS := Z) (FS := Z) (H := ArenaState) unit :=
  free (mallocSamplerOps := RateSampler rate) (freeSamplerOps := RateSampler 1)
       (superOps := Arena granule (2 ^ 32)) (env := unix) p.

Definition demo_state (rate granule : Z) (cs : list call)
  : State (MS := Z) (FS := Z) (H := ArenaState) :=
  match demo_run rate granule cs with
  | Done _ s => s
  | AssertionFailed => demo_fresh None
  end.

(** ** Construction: the signal dispositions

    The constructor of the class installs "ignore" for the two signals, under
    the lock of [get_signal_init_lock], and puts a handler it found back.
    The members it initialises are those of [fresh]. *)

(** A handler as [signal(2)] takes and returns it. *)
Inductive sighandler :=
| SIG_DFL
| SIG_IGN
| handler_at (address : Z).

Definition sighandler_eqb (a b : sighandler) : bool :=
  match a, b with
  | SIG_DFL, SIG_DFL | SIG_IGN, SIG_IGN => true
  | handler_at x, handler_at y => x =? y
  | _, _ => false
  end.

(** What the system keeps for a signal: the handler and, beside it, the
    flags and the mask of blocked signals that a program can set with
    [sigaction]. *)
Record sigaction := {
  sa_handler : sighandler;
  sa_flags : Z;
  sa_mask : list Z
}.

(** [signal] of the C library takes a handler only; the flags and the mask it
    installs with it are the library's own, by signal number, not those of
    the action it replaces. *)
Class SignalLibrary := {
  signal_flags : Z -> Z;
  signal_mask : Z -> list Z
}.

(** The dispositions of the process, by signal number, and whether the lock
    of [get_signal_init_lock] is held. *)
Record SignalState := {
  disposition : Z -> sigaction;
  signal_init_lock : bool
}.

(** [signal(signum, handler)] installs [handler], with the library's flags
    and mask, and returns the handler it replaces. *)
Definition signal {lib : SignalLibrary}
           (signum : Z) (handler : sighandler) (st : SignalState)
  : sighandler * SignalState :=
  (sa_handler (disposition st signum),
   {| disposition := fun n =>
        if n =? signum
        then {| sa_handler := handler;
                sa_flags := signal_flags signum;
                sa_mask := signal_mask signum |}
        else disposition st n;
      signal_init_lock := signal_init_lock st |}).

(** [lock()] of a [PosixLock] returns once the lock is free, holding it; with
    one thread of control it does not return when the lock is held. *)
Definition lock (st : SignalState) : option SignalState :=
  if signal_init_lock st then None
  else Some {| disposition := disposition st; signal_init_lock := true |}.

Definition unlock (st : SignalState) : SignalState :=
  {| disposition := disposition st; signal_init_lock := false |}.

(** The body of the constructor [SampleHeap()]. *)
Definition SampleHeap_ctor {lib : SignalLibrary} (st : SignalState)
  : option SignalState :=
  match lock st with
  | None => None
  | Some st0 =>
      let (old_malloc, st1) := signal (signo MallocSignal) SIG_IGN st0 in
      let st2 :=
        if negb (sighandler_eqb old_malloc SIG_DFL)
        then snd (signal (signo MallocSignal) old_malloc st1)
        else st1 in
      let (old_free, st3) := signal (signo FreeSignal) SIG_IGN st2 in
      let st4 :=
        if negb (sighandler_eqb old_free SIG_DFL)
        then snd (signal (signo FreeSignal) old_free st3)
        else st3 in
      Some (unlock st4)
  end.

(** Whether a line is the report of a malloc trigger. *)
Definition is_malloc_line (l : SampleLine) : bool :=
  Ascii.eqb (line_kind l) "M"%char.

(** A C library whose [signal] installs [SA_RESTART] and blocks the signal
    itself while its handler runs. *)
Definition bsd_signal : SignalLibrary :=
  {| signal_flags := fun _ => 268435456;
     signal_mask := fun signum => [signum] |}.

(** A process with a handler of its own for [SIGXCPU], installed with
    [sigaction], the flag [SA_SIGINFO] and [SIGINT] blocked. *)
Definition host_signals : SignalState :=
  {| disposition := fun n =>
       if n =? 24
       then {| sa_handler := handler_at 77; sa_flags := 4; sa_mask := [2] |}
       else {| sa_handler := SIG_DFL; sa_flags := 0; sa_mask := [] |};
     signal_init_lock := false |}.

(** What construction leaves of [host_signals]. *)
Definition host_signals_constructed : SignalState :=
  match SampleHeap_ctor (lib := bsd_signal) host_signals with
  | Some st => st
  | None => host_signals
  end.

(** A state in which the last trigger, at 4096, was freed and the free not
    reported. *)
Definition demo_flagged : State (MS := Z) (FS := Z) (H := ArenaState) :=
  set_freedLastMallocTrigger true
    (set_lastMallocTrigger 4096 (demo_fresh (Some (fun _ => Some here)))).

(** The state a call ends in, [default] if it aborts. *)
Definition final {MS FS H A : Type}
           (o : outcome (MS := MS) (FS := FS) (H := H) A)
           (default : State (MS := MS) (FS := FS) (H := H))
  : State (MS := MS) (FS := FS) (H := H) :=
  match o with
  | Done _ s => s
  | AssertionFailed => default
  end.

(** The demonstration process without a resolver, every call sampled. *)
Definition demo_run_unresolved (cs : list call)
  : outcome (MS := Z) (FS := Z) (H := ArenaState) unit :=
  run (mallocSamplerOps := RateSampler 1) (freeSamplerOps := RateSampler 1)
      (superOps := Arena 16 (2 ^ 32)) (env := unix) cs (demo_fresh None).

(** * Properties *)

Lemma app_one_neq {A} (l : list A) (x : A) : l ++ [x] <> l.
Proof.
  intros E. apply (f_equal (@List.length A)) in E.
  rewrite length_app in E. cbn in E. lia.
Qed.

Lemma app_one_inj {A} (l : list A) (x y : A) : l ++ [x] = l ++ [y] -> x = y.
Proof.
  intros E. apply app_inv_head in E. congruence.
Qed.

(** * Binary32 arithmetic: what the quotient can be *)

Lemma digits2_pos_bounds (p : positive) :
  2 ^ (Zpos (digits2_pos p) - 1) <= Zpos p < 2 ^ Zpos (digits2_pos p).
Proof.
  induction p as [p IH | p IH |]; cbn [digits2_pos].
  - rewrite Pos2Z.inj_succ.
    replace (Z.succ (Zpos (digits2_pos p)) - 1) with (Z.succ (Zpos (digits2_pos p) - 1)) by lia.
    rewrite !Z.pow_succ_r by lia. lia.
  - rewrite Pos2Z.inj_succ.
    replace (Z.succ (Zpos (digits2_pos p)) - 1) with (Z.succ (Zpos (digits2_pos p) - 1)) by lia.
    rewrite !Z.pow_succ_r by lia. lia.
  - cbn. lia.
Qed.

Lemma Zdigits2_unique (p : positive) (d : Z) :
  2 ^ (d - 1) <= Zpos p < 2 ^ d -> Zdigits2 (Zpos p) = d.
Proof.
  intros [Hl Hu]. cbn [Zdigits2].
  pose proof (digits2_pos_bounds p) as [Bl Bu].
  set (e := Zpos (digits2_pos p)) in *.
  assert (He : 0 < e) by (subst e; lia).
  destruct (Z.lt_trichotomy e d) as [Hlt | [Heq | Hgt]]; [|exact Heq|].
  - exfalso.
    assert (2 ^ e <= 2 ^ (d - 1)) by (apply Z.pow_le_mono_r; lia). lia.
  - exfalso.
    destruct (Z.le_gt_cases d 0) as [Hd | Hd].
    + assert (2 ^ d <= 1).
      { destruct (Z.eq_dec d 0) as [-> | Hn]; [cbn; lia|].
        rewrite Z.pow_neg_r by lia. lia. }
      lia.
    + assert (2 ^ d <= 2 ^ (e - 1)) by (apply Z.pow_le_mono_r; lia). lia.
Qed.

Lemma shr_1_div2 (mrs : shr_record) :
  0 <= shr_m mrs -> shr_m (shr_1 mrs) = shr_m mrs / 2.
Proof.
  destruct mrs as [m r s]. cbn [shr_m]. intros Hm.
  destruct m as [|p|p]; [reflexivity| |lia].
  destruct p as [p|p|]; cbn [shr_1 shr_m].
  - rewrite Pos2Z.inj_xI. apply Z.div_unique_pos with (r := 1); lia.
  - rewrite Pos2Z.inj_xO. apply Z.div_unique_pos with (r := 0); lia.
  - reflexivity.
Qed.

Lemma iter_pos_shr_1_div (p : positive) :
  forall mrs,
    0 <= shr_m mrs ->
    shr_m (SpecFloat.iter_pos shr_1 p mrs) = shr_m mrs / 2 ^ Zpos p.
Proof.
  induction p as [p IH | p IH |]; intros mrs Hm; cbn [SpecFloat.iter_pos].
  - assert (Hp : 0 < 2 ^ Zpos p) by (apply Z.pow_pos_nonneg; lia).
    assert (H1 : 0 <= shr_m (shr_1 mrs))
      by (rewrite shr_1_div2 by assumption; apply Z.div_pos; lia).
    assert (H2 : 0 <= shr_m (SpecFloat.iter_pos shr_1 p (shr_1 mrs)))
      by (rewrite IH by assumption; apply Z.div_pos; assumption).
    rewrite IH, IH, shr_1_div2 by assumption.
    rewrite !Z.div_div by lia.
    f_equal. rewrite Pos2Z.inj_xI, <- Z.pow_add_r by lia.
    replace (2 * Zpos p + 1) with (Z.succ (Zpos p + Zpos p)) by lia.
    rewrite Z.pow_succ_r by lia. reflexivity.
  - assert (Hp : 0 < 2 ^ Zpos p) by (apply Z.pow_pos_nonneg; lia).
    assert (H2 : 0 <= shr_m (SpecFloat.iter_pos shr_1 p mrs))
      by (rewrite IH by assumption; apply Z.div_pos; assumption).
    rewrite IH, IH by assumption.
    rewrite Z.div_div by lia.
    f_equal. rewrite Pos2Z.inj_xO, <- Z.pow_add_r by lia. f_equal. lia.
  - rewrite shr_1_div2 by assumption. reflexivity.
Qed.

(** A right shift of a non-negative mantissa divides it. *)
Lemma shr_spec (mrs : shr_record) (e n : Z) :
  0 <= shr_m mrs -> 0 <= n ->
  shr_m (fst (shr mrs e n)) = shr_m mrs / 2 ^ n /\
  snd (shr mrs e n) = e + n.
Proof.
  intros Hm Hn. destruct n as [|p|p]; cbn [shr fst snd].
  - rewrite Z.div_1_r. lia.
  - split; [apply iter_pos_shr_1_div; assumption | reflexivity].
  - lia.
Qed.

(** A shift by a non-positive amount does nothing. *)
Lemma shr_none (mrs : shr_record) (e n : Z) :
  n <= 0 -> shr mrs e n = (mrs, e).
Proof. destruct n as [|p|p]; intros Hn; [reflexivity | lia | reflexivity]. Qed.

Lemma shr_nonneg (mrs : shr_record) (e n : Z) :
  0 <= shr_m mrs -> 0 <= shr_m (fst (shr mrs e n)).
Proof.
  intros Hm. destruct (Z.le_gt_cases n 0) as [Hn | Hn].
  - rewrite shr_none by assumption. exact Hm.
  - destruct (shr_spec mrs e n Hm ltac:(lia)) as [-> _].
    apply Z.div_pos; [assumption | apply Z.pow_pos_nonneg; lia].
Qed.

Lemma shr_m_record_of_loc (m : Z) (l : location) :
  shr_m (shr_record_of_loc m l) = m.
Proof. destruct l as [|[| |]]; reflexivity. Qed.

Lemma round_nearest_even_bounds (m : Z) (l : location) :
  m <= round_nearest_even m l <= m + 1.
Proof.
  destruct l as [|[| |]]; cbn [round_nearest_even]; try lia.
  destruct (Z.even m); lia.
Qed.

(** Rounding a non-negative mantissa never gives a NaN. *)
Lemma binary_round_aux_not_nan (sx : bool) (mx ex : Z) (lx : location) :
  0 <= mx ->
  binary_round_aux Float32.prec Float32.emax sx mx ex lx <> S754_nan.
Proof.
  intros Hm. unfold binary_round_aux, shr_fexp.
  match goal with
  | |- context [shr (shr_record_of_loc mx lx) ex ?n] =>
      pose proof (shr_nonneg (shr_record_of_loc mx lx) ex n) as H1;
      destruct (shr (shr_record_of_loc mx lx) ex n) as [mrs' e']
  end.
  rewrite shr_m_record_of_loc in H1. specialize (H1 Hm). cbn [fst] in H1.
  pose proof (round_nearest_even_bounds (shr_m mrs') (loc_of_shr_record mrs'))
    as Hr.
  set (m2 := round_nearest_even (shr_m mrs') (loc_of_shr_record mrs')) in *.
  match goal with
  | |- context [shr (shr_record_of_loc m2 loc_Exact) e' ?n] =>
      pose proof (shr_nonneg (shr_record_of_loc m2 loc_Exact) e' n) as H2;
      destruct (shr (shr_record_of_loc m2 loc_Exact) e' n) as [mrs'' e'']
  end.
  cbn [shr_record_of_loc shr_m fst] in H2. specialize (H2 ltac:(lia)).
  destruct (shr_m mrs'') as [|q|q]; [discriminate| |lia].
  destruct (e'' <=? Float32.emax - Float32.prec); discriminate.
Qed.

Lemma loc_of_shr_record_of_loc (m : Z) (l : location) :
  loc_of_shr_record (shr_record_of_loc m l) = l.
Proof. destruct l as [|[| |]]; reflexivity. Qed.

(** Rounding a mantissa of 24 digits or more, in the range of exponents of
    the integers below 2^64, gives a finite number. *)
Lemma binary_round_aux_finite (sx : bool) (p : positive) (ex : Z) (lx : location) :
  24 <= Zdigits2 (Zpos p) ->
  -149 <= Zdigits2 (Zpos p) + ex - 24 <= 103 ->
  exists m e,
    binary_round_aux Float32.prec Float32.emax sx (Zpos p) ex lx =
      S754_finite sx m e.
Proof.
  intros Hd He.
  pose proof (digits2_pos_bounds p) as Hb.
  cbn [Zdigits2] in Hd, He.
  set (d := Zpos (digits2_pos p)) in *.
  unfold binary_round_aux, shr_fexp, fexp, emin, Float32.prec, Float32.emax.
  cbn [Zdigits2]. fold d.
  replace (Z.max (d + ex - 24) (3 - 128 - 24) - ex) with (d - 24) by lia.
  (* the first shift *)
  destruct (shr_spec (shr_record_of_loc (Zpos p) lx) ex (d - 24))
    as [Hm1 He1]; [rewrite shr_m_record_of_loc; lia | lia |].
  rewrite shr_m_record_of_loc in Hm1.
  destruct (shr (shr_record_of_loc (Zpos p) lx) ex (d - 24)) as [mrs' e'].
  cbn [fst snd] in Hm1, He1.
  assert (Hm1b : 2 ^ 23 <= shr_m mrs' < 2 ^ 24).
  { rewrite Hm1.
    assert (Hk : 0 < 2 ^ (d - 24)) by (apply Z.pow_pos_nonneg; lia).
    assert (E1 : 2 ^ (d - 1) = 2 ^ 23 * 2 ^ (d - 24))
      by (rewrite <- Z.pow_add_r by lia; f_equal; lia).
    assert (E2 : 2 ^ d = 2 ^ 24 * 2 ^ (d - 24))
      by (rewrite <- Z.pow_add_r by lia; f_equal; lia).
    split.
    - apply Z.div_le_lower_bound; [assumption|]. rewrite Z.mul_comm. lia.
    - apply Z.div_lt_upper_bound; [assumption|]. rewrite Z.mul_comm. lia. }
  (* the rounding *)
  pose proof (round_nearest_even_bounds (shr_m mrs') (loc_of_shr_record mrs'))
    as Hr.
  set (m2 := round_nearest_even (shr_m mrs') (loc_of_shr_record mrs')) in *.
  assert (Hm2 : 2 ^ 23 <= m2 <= 2 ^ 24) by lia.
  destruct m2 as [|p2|p2] eqn:Em2; [cbn in Hm2; lia | | cbn in Hm2; lia].
  (* the second shift, by one digit at most *)
  destruct (Z.eq_dec (Zpos p2) (2 ^ 24)) as [Htop | Hlow].
  - assert (Hd2 : Zdigits2 (Zpos p2) = 25)
      by (apply Zdigits2_unique; rewrite Htop; cbn; lia).
    rewrite Hd2.
    replace (Z.max (25 + e' - 24) (3 - 128 - 24) - e') with 1 by lia.
    cbn [shr shr_record_of_loc SpecFloat.iter_pos].
    rewrite shr_1_div2 by (cbn [shr_m]; lia). cbn [shr_m].
    rewrite Htop. change (2 ^ 24 / 2) with (Zpos 8388608).
    replace (e' + 1 <=? 128 - 24) with true by (symmetry; apply Z.leb_le; lia).
    do 2 eexists. reflexivity.
  - assert (Hd2 : Zdigits2 (Zpos p2) = 24)
      by (apply Zdigits2_unique; change (24 - 1) with 23; lia).
    rewrite Hd2.
    replace (Z.max (24 + e' - 24) (3 - 128 - 24) - e') with 0 by lia.
    cbn [shr shr_record_of_loc shr_m].
    replace (e' <=? 128 - 24) with true by (symmetry; apply Z.leb_le; lia).
    do 2 eexists. reflexivity.
Qed.

Lemma pos_iter_xO (q p : positive) :
  Zpos (Pos.iter xO p q) = Zpos p * 2 ^ Zpos q.
Proof.
  induction q as [|q IH] using Pos.peano_ind.
  - cbn. lia.
  - rewrite Pos.iter_succ, Pos2Z.inj_xO, IH, Pos2Z.inj_succ, Z.pow_succ_r by lia.
    lia.
Qed.

(** The conversion of an unsigned 64-bit integer other than 0 is a finite,
    positive number. *)
Lemma of_uint64_finite (n : Z) :
  0 < n < 2 ^ 64 ->
  exists m e, Float32.of_uint64 n = S754_finite false m e.
Proof.
  intros [Hn Hu]. destruct n as [|p|p]; [lia | | lia].
  unfold Float32.of_uint64, binary_normalize, binary_round.
  pose proof (digits2_pos_bounds p) as Hb.
  set (d := Zpos (digits2_pos p)) in *.
  assert (Hd1 : 1 <= d) by (subst d; lia).
  assert (Hd64 : d <= 64).
  { destruct (Z.le_gt_cases d 64) as [|Hgt]; [assumption|exfalso].
    assert (2 ^ 64 <= 2 ^ (d - 1)) by (apply Z.pow_le_mono_r; lia). lia. }
  unfold fexp, emin, Float32.prec, Float32.emax.
  replace (Z.max (d + 0 - 24) (3 - 128 - 24)) with (d - 24) by lia.
  unfold shl_align.
  destruct (d - 24 - 0) as [|k|k] eqn:Ek.
  - apply binary_round_aux_finite; cbn [Zdigits2]; fold d; lia.
  - apply binary_round_aux_finite; cbn [Zdigits2]; fold d; lia.
  - assert (Hk : Zpos k = 24 - d) by lia.
    assert (Hz : Zdigits2 (Zpos (Pos.iter xO p k)) = 24).
    { apply Zdigits2_unique. rewrite pos_iter_xO, Hk.
      assert (Hp : 0 < 2 ^ (24 - d)) by (apply Z.pow_pos_nonneg; lia).
      assert (E1 : 2 ^ (24 - 1) = 2 ^ (d - 1) * 2 ^ (24 - d))
        by (rewrite <- Z.pow_add_r by lia; f_equal; lia).
      assert (E2 : 2 ^ 24 = 2 ^ d * 2 ^ (24 - d))
        by (rewrite <- Z.pow_add_r by lia; f_equal; lia).
      rewrite E1, E2. split.
      - apply Z.mul_le_mono_nonneg_r; lia.
      - apply Z.mul_lt_mono_pos_r; lia. }
    apply binary_round_aux_finite; rewrite Hz; lia.
Qed.

(** The quotient of a finite number by [(float) n] is never a NaN. *)
Lemma div_by_uint64_not_nan (mx : positive) (ex n : Z) :
  0 <= n < 2 ^ 64 ->
  Float32.div (S754_finite false mx ex) (Float32.of_uint64 n) <> S754_nan.
Proof.
  intros Hn. destruct (Z.eq_dec n 0) as [-> | Hz].
  - cbn. discriminate.
  - destruct (of_uint64_finite n ltac:(lia)) as (my & ey & ->).
    unfold Float32.div, SFdiv, SFdiv_core_binary.
    match goal with
    | |- context [Z.div_eucl ?a (Zpos my)] =>
        assert (Ha : 0 <= a);
        [ | pose proof (Z_div_mod a (Zpos my) ltac:(lia)) as Hdm;
            destruct (Z.div_eucl a (Zpos my)) as [q r] ]
    end.
    + match goal with
      | |- 0 <= match ?s with _ => _ end =>
          destruct s; [lia | apply Z.shiftl_nonneg; lia | lia]
      end.
    + apply binary_round_aux_not_nan.
      destruct Hdm as [Hq Hr]. nia.
Qed.

Section Theory.

Context {MS FS H : Type}.
Context {mallocSamplerOps : Sampler MS} {freeSamplerOps : Sampler FS}
        {superOps : SuperHeap H} {env : Environment}.

Local Abbreviation St := (@State MS FS H).

(** Run the member functions as far as the state is known. *)
Ltac reduce :=
  cbv beta iota delta
      [step malloc free memalign register_malloc register_free
       process_malloc process_free writeCount writeToFile raise
       MallocRecursionGuard MallocRecursionGuard_release
       bind gets modify when assert ret lines_of
       set_super set_mallocSampler set_freeSampler set_pythonCount
       set_cCount set_lastMallocTrigger set_freedLastMallocTrigger
       set_mallocTriggered set_freeTriggered set_sampleFile set_inMalloc
       set_raised fresh id nullptr
       super _mallocSampler _freeSampler _pythonCount _cCount
       _lastMallocTrigger _freedLastMallocTrigger mallocTriggered
       freeTriggered sampleFile p_whereInPython inMalloc raised];
  cbn [negb andb orb AllocSignal_eqb].

(** Name the fields of a state. *)
Ltac open_state s :=
  destruct s as [s_super s_ms s_fs s_py s_c s_last s_freed s_mt s_ft
                 s_file s_where s_in s_raised].

(** A comparison of two numerals is computed; any other one is settled by
    cases. *)
Ltac is_posnum p :=
  lazymatch p with
  | xH => idtac
  | xO ?q => is_posnum q
  | xI ?q => is_posnum q
  end.

Ltac is_Znum a :=
  lazymatch a with
  | Z0 => idtac
  | Zpos ?p => is_posnum p
  | Zneg ?p => is_posnum p
  end.

Ltac decide_test cmp a b :=
  tryif (is_Znum a; is_Znum b)
  then (let v := eval cbv in (cmp a b) in change (cmp a b) with v)
  else destruct (cmp a b) eqn:?.

(** Settle the next test of the run: by a hypothesis if one speaks of it,
    by cases otherwise. *)
Ltac next_test :=
  match goal with
  | E : ?x = _ |- context [?x] => tryif is_var x then fail else rewrite E
  | |- context [?a =? ?b] => decide_test Z.eqb a b
  | |- context [?a <? ?b] => decide_test Z.ltb a b
  | |- context [?a <=? ?b] => decide_test Z.leb a b
  | |- context [sample ?a ?b] => destruct (sample a b) eqn:?
  | |- context [super_malloc ?a ?b] => destruct (super_malloc a b) eqn:?
  | |- context [super_memalign ?a ?b ?c] =>
      destruct (super_memalign a b c) eqn:?
  | |- context [negb ?b] => destruct b eqn:?
  | |- context [if ?b then _ else _] => destruct b eqn:?
  | |- context [match ?x with Some _ => _ | None => _ end] =>
      destruct x eqn:?
  end.

Ltac go := unfold nullptr in *; repeat (reduce; next_test); reduce.

Ltac bool_facts :=
  repeat match goal with
    | E : (_ && _) = true |- _ => apply andb_true_iff in E; destruct E
    | E : (_ =? _) = true |- _ => apply Z.eqb_eq in E
    | E : (_ =? _) = false |- _ => apply Z.eqb_neq in E
    | E : (_ <? _) = true |- _ => apply Z.ltb_lt in E
    | E : (_ <? _) = false |- _ => apply Z.ltb_ge in E
    | E : (_ <=? _) = true |- _ => apply Z.leb_le in E
    | E : (_ <=? _) = false |- _ => apply Z.leb_gt in E
    end.

(** A property of the state a call ends in, read off the run. *)
Lemma step_inv (P : St -> Prop) (c : call) (s : St) :
  match step c s with Done _ s' => P s' | AssertionFailed => True end ->
  forall s', step c s = Done tt s' -> P s'.
Proof. intros G s' E. rewrite E in G. exact G. Qed.

Ltac by_run s' :=
  let E := fresh "E" in
  intros E; pattern s'; revert E; revert s'; apply step_inv.

(** ** What one write does *)

(** [writeCount] always completes; it appends exactly one line, leaves
    the freed-last-trigger flag cleared, and touches nothing else but a
    zero [_pythonCount]. *)
Lemma writeCount_spec (sig : AllocSignal) (count : Z) (p : ptr)
      (loc : Location) (s : St) :
  exists s' l,
    writeCount sig count p loc s = Done tt s' /\
    sampleFile s' = sampleFile s ++ [l] /\
    _freedLastMallocTrigger s' = false /\
    _pythonCount s' = (if _pythonCount s =? 0 then 1 else _pythonCount s) /\
    _cCount s' = _cCount s /\
    _lastMallocTrigger s' = _lastMallocTrigger s /\
    mallocTriggered s' = mallocTriggered s /\
    freeTriggered s' = freeTriggered s /\
    raised s' = raised s /\
    line_kind l =
      (if AllocSignal_eqb sig MallocSignal then "M"%char
       else if _freedLastMallocTrigger s then "f"%char else "F"%char) /\
    line_address l =
      (if _freedLastMallocTrigger s then _lastMallocTrigger s else p) /\
    line_seq l = wrap64 (mallocTriggered s + freeTriggered s) /\
    line_count l = count.
Proof.
  open_state s. reduce.
  destruct (s_py =? 0) eqn:E; reduce;
    do 2 eexists; (split; [reflexivity|]); reduce; rewrite ?E;
    repeat split; reflexivity.
Qed.

(** ** C6: a failed symbolication suppresses the sample *)

(** C6.  When no resolver is installed ([p_whereInPython] is null) or the
    resolver reports failure, [process_malloc] and [process_free] return
    with the state exactly as they found it: no line is appended, no
    signal is raised, and the trigger counters, the last-trigger pointer
    and the attribution counters are what they were. *)
Theorem symbolication_failure_suppresses_sample
        (s : St) (sampled : Z) (p : ptr) :
  (p_whereInPython s = None \/
   exists whereInPython,
     p_whereInPython s = Some whereInPython /\ whereInPython tt = None) ->
  process_malloc sampled p s = Done tt s /\
  process_free sampled s = Done tt s.
Proof.
  intros [E | [wh [E Ewh]]]; unfold process_malloc, process_free, bind, gets, ret;
    rewrite E; rewrite ?Ewh; split; reflexivity.
Qed.

(** ** C9: a failed allocation is passed on untouched *)

(** C9.  When the allocator underneath returns [nullptr], [malloc] and
    [memalign] return [nullptr] and leave every field of the state but
    the allocator's own as it was: samplers, attribution counters, sample
    file, signals, trigger counters and the recursion marker. *)
Theorem allocation_failure_has_no_sampling_effect (s : St) :
  (forall sz h',
      super_malloc (super s) sz = (nullptr, h') ->
      malloc sz s = Done nullptr (set_super h' s)) /\
  (forall alignment sz h',
      super_memalign (super s) alignment sz = (nullptr, h') ->
      memalign alignment sz s = Done nullptr (set_super h' s)).
Proof.
  open_state s; split; intros * E; cbn in E; go; reflexivity.
Qed.

(** ** C7: the attribution fraction *)

(** C7.  The fraction on a line written by [writeCount] is the binary32
    quotient of the managed count by the 64-bit sum of the managed and
    the native count, the managed count being taken as 1 when it is 0.
    With managed = 300 and native = 100 the fraction is 3/4; with
    managed = 0 and native = 50 it is a finite number, the binary32
    value next to 1/51. *)
Theorem attribution_fraction_formula
        (sig : AllocSignal) (count : Z) (p : ptr) (loc : Location) (s : St) :
  map line_fraction (lines_of (writeCount sig count p loc s)) =
    map line_fraction (sampleFile s) ++
    [let managed := if _pythonCount s =? 0 then 1 else _pythonCount s in
     Float32.div (Float32.of_uint64 managed)
                 (Float32.of_uint64 (wrap64 (managed + _cCount s)))] /\
  (exists f q,
      map line_fraction
          (lines_of (writeCount sig count p loc
                                (set_pythonCount 300 (set_cCount 100 s)))) =
        map line_fraction (sampleFile s) ++ [f] /\
      Float32.to_Q f = Some q /\ (q == 3 # 4)%Q) /\
  (exists f q,
      map line_fraction
          (lines_of (writeCount sig count p loc
                                (set_pythonCount 0 (set_cCount 50 s)))) =
        map line_fraction (sampleFile s) ++ [f] /\
      Float32.to_Q f = Some q /\
      (Qabs (q - (1 # 51)) <= 1 # 1073741824)%Q).
Proof.
  open_state s. split; [|split].
  - reduce. destruct (s_py =? 0) eqn:E; reduce;
      rewrite map_app; cbn [map line_fraction]; reflexivity.
  - reduce. change (300 =? 0) with false. reduce.
    rewrite map_app. cbn [map line_fraction].
    do 2 eexists. split; [reflexivity|]. split; [vm_compute; reflexivity|].
    vm_compute. reflexivity.
  - reduce. change (0 =? 0) with true. reduce.
    rewrite map_app. cbn [map line_fraction].
    do 2 eexists. split; [reflexivity|]. split; [vm_compute; reflexivity|].
    vm_compute. discriminate.
Qed.

(** ** C3: the sequence number *)

(** C3, as the code has it.  Whatever the call, a line it appends carries
    the sum, modulo 2^64, of the two trigger counters as they were when
    the call began: the counter of the trigger is incremented after the
    write.  Hence the first malloc trigger of a fresh process writes
    sequence number 0 and leaves the malloc-trigger counter at 1. *)
Theorem sequence_number_is_counter_sum_before_increment :
  (forall (c : call) (s s' : St),
      step c s = Done tt s' ->
      sampleFile s' = sampleFile s \/
      exists l, sampleFile s' = sampleFile s ++ [l] /\
                line_seq l = wrap64 (mallocTriggered s + freeTriggered s)) /\
  (forall (h h' : H) (ms ms' : MS) (fs : FS) whereInPython loc sz p weight,
      super_malloc h sz = (p, h') ->
      p <> nullptr ->
      0 < super_getSize h' p ->
      sample ms (super_getSize h' p) = (weight, ms') ->
      weight <> 0 ->
      whereInPython tt = Some loc ->
      exists s' l,
        malloc sz (fresh h ms fs (Some whereInPython)) = Done p s' /\
        sampleFile s' = [l] /\
        line_kind l = "M"%char /\
        line_seq l = 0 /\
        mallocTriggered s' = 1).
Proof.
  split.
  - intros c s s'. by_run s'.
    open_state s; destruct c; go; try exact I; auto;
      right; eexists; split; reflexivity.
  - intros * Em Ep Esz Es Ew Eloc.
    apply Z.eqb_neq in Ep, Ew.
    assert (Esz' : (super_getSize h' p =? 0) = false)
      by (apply Z.eqb_neq; lia).
    apply Z.ltb_lt in Esz.
    go; do 2 eexists; (split; [reflexivity|]); repeat split.
Qed.

(** ** C1: kind and address of a free line *)

(** C1, as the code has it.  Take a free that is sampled and resolved.
    If the freed pointer is the stored last-trigger address, or the
    freed-last-trigger flag is still set from an earlier free of that
    address, the line has kind [f] and reports the stored address.
    Otherwise the line has kind [F] and its address is the null pointer:
    [process_free] does not receive the freed pointer and hands
    [nullptr] to [writeCount]. *)
Theorem free_trigger_kind_and_address
        (s : St) (p : ptr) (weight : Z) (fs' : FS) whereInPython loc :
  p <> nullptr ->
  inMalloc s = false ->
  sample (_freeSampler s) (super_getSize (super s) p) = (weight, fs') ->
  weight <> 0 ->
  p_whereInPython s = Some whereInPython ->
  whereInPython tt = Some loc ->
  exists s' l,
    free p s = Done tt s' /\
    sampleFile s' = sampleFile s ++ [l] /\
    (p = _lastMallocTrigger s \/ _freedLastMallocTrigger s = true ->
     line_kind l = "f"%char /\ line_address l = _lastMallocTrigger s) /\
    (p <> _lastMallocTrigger s -> _freedLastMallocTrigger s = false ->
     line_kind l = "F"%char /\ line_address l = nullptr).
Proof.
  open_state s. intros Ep Eg Es Ew Ewh Eloc. cbn in Eg, Es, Ewh. subst.
  apply Z.eqb_neq in Ep, Ew.
  go; do 2 eexists; (split; [reflexivity|]); reduce;
    (split; [reflexivity|]); bool_facts;
    (split; [intros [?|?] | intros ? ?]); try congruence; split; reflexivity.
Qed.

(** ** C2: the freed-last-trigger flag *)

(** Over one call: the flag is set at the end only if the call wrote no
    line and either the flag was set before or the call frees the last
    trigger; a call that wrote a line leaves the flag cleared; a line of
    kind [f] is only written by a free, when the flag was set or the freed
    pointer is the stored address. *)
Lemma freed_flag_step (c : call) (s s' : St) :
  step c s = Done tt s' ->
  (_freedLastMallocTrigger s' = true ->
   sampleFile s' = sampleFile s /\
   (_freedLastMallocTrigger s = true \/
    exists p, c = Free p /\ p <> nullptr /\ p = _lastMallocTrigger s)) /\
  (sampleFile s' <> sampleFile s -> _freedLastMallocTrigger s' = false) /\
  (forall l,
      sampleFile s' = sampleFile s ++ [l] ->
      line_kind l = "f"%char ->
      exists p, c = Free p /\
                (_freedLastMallocTrigger s = true \/
                 (p <> nullptr /\ p = _lastMallocTrigger s))).
Proof.
  by_run s'.
  open_state s; destruct c; go; try exact I; bool_facts.
  all: (split; [intros Ef | split; [intros Ew | intros line El Ek]]).
  all: try discriminate; try reflexivity; try congruence.
  all: try (exfalso; apply Ew; reflexivity).
  all: try (symmetry in El; apply app_one_neq in El; contradiction).
  all: try (apply app_one_inj in El; subst line; cbn in Ek; try discriminate).
  all: try (split; [reflexivity|]).
  all: eauto 7.
Qed.

(** The [f] lines written so far, plus one while the flag is set, grow over
    a call by one at most, and only if the call frees the last trigger. *)
Lemma f_lines_step (c : call) (s s' : St) :
  step c s = Done tt s' ->
  (f_lines (sampleFile s') + (if _freedLastMallocTrigger s' then 1 else 0) <=
   f_lines (sampleFile s) + (if _freedLastMallocTrigger s then 1 else 0) +
   (if frees_last_trigger c s then 1 else 0))%nat.
Proof.
  by_run s'.
  open_state s; destruct c; unfold frees_last_trigger, f_lines;
    go; try exact I;
    rewrite ?filter_app, ?length_app; cbn; try lia.
Qed.

Lemma f_lines_run (cs : list call) :
  forall s s' : St,
    run cs s = Done tt s' ->
    (f_lines (sampleFile s') + (if _freedLastMallocTrigger s' then 1 else 0) <=
     f_lines (sampleFile s) + (if _freedLastMallocTrigger s then 1 else 0) +
     matching_frees cs s)%nat.
Proof.
  induction cs as [|c cs IH]; intros s s' E.
  - cbn in E. inversion E; subst. cbn. lia.
  - cbn in E. unfold bind in E. cbn [matching_frees].
    destruct (step c s) as [[] s1|] eqn:E1; [|discriminate E].
    apply f_lines_step in E1. apply IH in E. lia.
Qed.

(** X19.  The life of the freed-last-trigger flag.  Over any call: the flag
    is set at the end only if the call wrote no line and either the flag was
    set before or the call is a free of the (non-null) stored last-trigger
    address; a call that wrote a line leaves the flag cleared; and a line of
    kind [f] is only written by a free, when the flag was set or the freed
    pointer is the stored address.  Over any run there are no more lines of
    kind [f] than frees of the stored address. *)
Theorem freed_flag_set_by_matching_free_cleared_by_write :
  (forall (c : call) (s s' : St),
      step c s = Done tt s' ->
      (_freedLastMallocTrigger s' = true ->
       sampleFile s' = sampleFile s /\
       (_freedLastMallocTrigger s = true \/
        exists p, c = Free p /\ p <> nullptr /\ p = _lastMallocTrigger s)) /\
      (sampleFile s' <> sampleFile s -> _freedLastMallocTrigger s' = false) /\
      (forall l,
          sampleFile s' = sampleFile s ++ [l] ->
          line_kind l = "f"%char ->
          exists p, c = Free p /\
                    (_freedLastMallocTrigger s = true \/
                     (p <> nullptr /\ p = _lastMallocTrigger s)))) /\
  (forall (cs : list call) (s s' : St),
      run cs s = Done tt s' ->
      _freedLastMallocTrigger s = false ->
      (f_lines (sampleFile s') <=
       f_lines (sampleFile s) + matching_frees cs s)%nat).
Proof.
  split.
  - exact freed_flag_step.
  - intros cs s s' E Ef. apply f_lines_run in E. rewrite Ef in E.
    destruct (_freedLastMallocTrigger s'); lia.
Qed.

(** ** C5: the attribution counters across triggers *)

(** C5, as the code has it.  A malloc trigger that is resolved leaves both
    attribution counters at zero.  A free trigger never changes the native
    counter, and changes the managed counter in one case only: when it is 0
    as the write begins, the guard against 0/0 stores 1 in it, and it is 1
    afterwards.  The same holds of a whole call of [free]. *)
Theorem attribution_counters_across_triggers
        (s : St) (sampled : Z) (p q : ptr) whereInPython loc :
  p_whereInPython s = Some whereInPython ->
  whereInPython tt = Some loc ->
  (exists s',
      process_malloc sampled p s = Done tt s' /\
      _pythonCount s' = 0 /\ _cCount s' = 0) /\
  (exists s',
      process_free sampled s = Done tt s' /\
      _cCount s' = _cCount s /\
      _pythonCount s' = (if _pythonCount s =? 0 then 1 else _pythonCount s)) /\
  (exists s',
      free q s = Done tt s' /\
      _cCount s' = _cCount s /\
      (_pythonCount s' = _pythonCount s \/
       (_pythonCount s = 0 /\ _pythonCount s' = 1 /\
        sampleFile s' <> sampleFile s))).
Proof.
  open_state s. intros Ewh Eloc. cbn in Ewh. subst.
  split; [|split].
  - go; eexists; (split; [reflexivity|]); split; reflexivity.
  - go; eexists; (split; [reflexivity|]); split; reflexivity.
  - go; eexists; (split; [reflexivity|]); reduce;
      (split; [reflexivity|]); bool_facts;
      first [ left; reflexivity
            | right; repeat split; auto using app_one_neq ].
Qed.

(** ** C8: one signal for both kinds of trigger *)

(** C8.  With signals compiled in, a call either writes no line and raises
    no signal, or writes one line and raises [MallocSignal] once; this is so
    for [malloc], [memalign] and [free] alike. *)
Theorem both_triggers_raise_malloc_signal (c : call) (s s' : St) :
  SCALENE_DISABLE_SIGNALS = false ->
  step c s = Done tt s' ->
  (sampleFile s' = sampleFile s /\ raised s' = raised s) \/
  (exists l,
      sampleFile s' = sampleFile s ++ [l] /\
      raised s' = raised s ++ [MallocSignal]).
Proof.
  intros Esig. by_run s'.
  open_state s; destruct c; go; try exact I; auto;
    right; eexists; split; reflexivity.
Qed.

(** ** C4: the assertions of memalign *)

(** C4, as the code has it.  Take a call of [memalign] that is not nested
    and whose allocation succeeds, and let [realSize] be the delivered
    size.  The call completes, no assertion failing, exactly when
    [realSize] is at least the requested size, [realSize] is at most twice
    the requested size (the product taken modulo 2^64) for every request of
    16 bytes or more, and [realSize] is not zero, which [register_malloc]
    asserts. *)
Theorem memalign_assertions_iff
        (s : St) (alignment sz : Z) (p : ptr) (h' : H) :
  inMalloc s = false ->
  super_memalign (super s) alignment sz = (p, h') ->
  p <> nullptr ->
  (exists s', memalign alignment sz s = Done p s') <->
  (sz <= super_getSize h' p /\
   (16 <= sz -> super_getSize h' p <= wrap64 (2 * sz)) /\
   super_getSize h' p <> 0).
Proof.
  open_state s. intros Eg Em Ep. cbn in Eg, Em. subst. apply Z.eqb_neq in Ep.
  go; bool_facts;
    (split;
     [ intros [s' E]; try discriminate E; repeat split; intros; lia
     | intros (E1 & E2 & E3); try lia; try (eexists; reflexivity) ]).
Qed.

(** ** C10: which counter an allocation accrues to *)

(** C10.  A call of [memalign] that is not nested, succeeds and passes its
    assertions adds the delivered size to the managed counter
    [_pythonCount] and leaves the native counter [_cCount] alone; a call of
    [malloc] adds it to [_cCount] and leaves [_pythonCount] alone.  When no
    line is written (the sampler does not fire, or the place is not
    resolved) the counters so updated are those of the state the call ends
    in; when a line is written, its fraction is computed from them. *)
Theorem memalign_accrues_managed_malloc_accrues_native (s : St) :
  inMalloc s = false ->
  (forall alignment sz p h' weight ms',
      super_memalign (super s) alignment sz = (p, h') ->
      p <> nullptr ->
      sz <= super_getSize h' p ->
      (sz < 16 \/ super_getSize h' p <= wrap64 (2 * sz)) ->
      super_getSize h' p <> 0 ->
      sample (_mallocSampler s) (super_getSize h' p) = (weight, ms') ->
      let managed := wrap64 (_pythonCount s + super_getSize h' p) in
      let native := _cCount s in
      ((weight = 0 \/ p_whereInPython s = None \/
        exists whereInPython,
          p_whereInPython s = Some whereInPython /\ whereInPython tt = None) ->
       exists s',
         memalign alignment sz s = Done p s' /\
         _pythonCount s' = managed /\ _cCount s' = native) /\
      (forall whereInPython loc,
          weight <> 0 ->
          p_whereInPython s = Some whereInPython ->
          whereInPython tt = Some loc ->
          exists s' l,
            memalign alignment sz s = Done p s' /\
            sampleFile s' = sampleFile s ++ [l] /\
            line_fraction l =
              (let m := if managed =? 0 then 1 else managed in
               Float32.div (Float32.of_uint64 m)
                           (Float32.of_uint64 (wrap64 (m + native)))))) /\
  (forall sz p h' weight ms',
      super_malloc (super s) sz = (p, h') ->
      p <> nullptr ->
      0 < super_getSize h' p ->
      sample (_mallocSampler s) (super_getSize h' p) = (weight, ms') ->
      let managed := _pythonCount s in
      let native := wrap64 (_cCount s + super_getSize h' p) in
      ((weight = 0 \/ p_whereInPython s = None \/
        exists whereInPython,
          p_whereInPython s = Some whereInPython /\ whereInPython tt = None) ->
       exists s',
         malloc sz s = Done p s' /\
         _pythonCount s' = managed /\ _cCount s' = native) /\
      (forall whereInPython loc,
          weight <> 0 ->
          p_whereInPython s = Some whereInPython ->
          whereInPython tt = Some loc ->
          exists s' l,
            malloc sz s = Done p s' /\
            sampleFile s' = sampleFile s ++ [l] /\
            line_fraction l =
              (let m := if managed =? 0 then 1 else managed in
               Float32.div (Float32.of_uint64 m)
                           (Float32.of_uint64 (wrap64 (m + native)))))).
Proof.
  open_state s. intros Eg. cbn in Eg. subst. split.
  - intros * Em Ep E1 E2 E3 Es managed native. subst managed native.
    cbn in Em, Es. cbn [_pythonCount _cCount p_whereInPython sampleFile].
    apply Z.eqb_neq in Ep, E3. apply Z.leb_le in E1.
    assert (E2' : (sz <? 16) = true \/
                  ((sz <? 16) = false /\
                   (super_getSize h' p <=? wrap64 (2 * sz)) = true)).
    { destruct (sz <? 16) eqn:Elt; [left; reflexivity|right].
      split; [reflexivity|]. apply Z.ltb_ge in Elt. apply Z.leb_le.
      destruct E2; [lia | assumption]. }
    split.
    + intros [-> | [Hn | (wh & Hs & Hf)]]; subst;
        destruct E2' as [E2' | [E2' E2'']];
        go; eexists; (split; [reflexivity|]); split; reflexivity.
    + intros wh loc Ew Ewh Eloc. subst. apply Z.eqb_neq in Ew.
      destruct E2' as [E2' | [E2' E2'']];
        go; do 2 eexists; (split; [reflexivity|]); split; reflexivity.
  - intros * Em Ep E1 Es managed native. subst managed native.
    cbn in Em, Es. cbn [_pythonCount _cCount p_whereInPython sampleFile].
    assert (E3 : (super_getSize h' p =? 0) = false) by (apply Z.eqb_neq; lia).
    apply Z.eqb_neq in Ep. apply Z.ltb_lt in E1.
    split.
    + intros [-> | [Hn | (wh & Hs & Hf)]]; subst;
        go; eexists; (split; [reflexivity|]); split; reflexivity.
    + intros wh loc Ew Ewh Eloc. subst. apply Z.eqb_neq in Ew.
      go; do 2 eexists; (split; [reflexivity|]); split; reflexivity.
Qed.

(** ** What one call does to the output *)

(** A call leaves the resolver alone.  Either it writes nothing, raises
    nothing and leaves the trigger counters and the last-trigger pointer as
    they were; or the resolver succeeded and the call wrote one line, raised
    the malloc signal if signals are compiled in, and incremented the counter
    of its kind of trigger. *)
Lemma step_effect (c : call) (s s' : St) :
  step c s = Done tt s' ->
  p_whereInPython s' = p_whereInPython s /\
  ((sampleFile s' = sampleFile s /\ raised s' = raised s /\
    mallocTriggered s' = mallocTriggered s /\
    freeTriggered s' = freeTriggered s /\
    _lastMallocTrigger s' = _lastMallocTrigger s) \/
   (exists l whereInPython loc,
       p_whereInPython s = Some whereInPython /\
       whereInPython tt = Some loc /\
       sampleFile s' = sampleFile s ++ [l] /\
       raised s' =
         raised s ++ (if SCALENE_DISABLE_SIGNALS then [] else [MallocSignal]) /\
       line_seq l = wrap64 (mallocTriggered s + freeTriggered s) /\
       line_pid l = getpid /\
       (line_filename l, line_lineno l, line_bytei l) =
         (filename loc, lineno loc, bytei loc) /\
       match c with
       | Free _ =>
           (line_kind l = "f"%char \/ line_kind l = "F"%char) /\
           mallocTriggered s' = mallocTriggered s /\
           freeTriggered s' = wrap64 (freeTriggered s + 1)
       | _ =>
           line_kind l = "M"%char /\
           mallocTriggered s' = wrap64 (mallocTriggered s + 1) /\
           freeTriggered s' = freeTriggered s
       end)).
Proof.
  by_run s'.
  open_state s; destruct c; go; try exact I; (split; [reflexivity|]);
    first [ left; repeat split; reflexivity
          | right; do 3 eexists; rewrite ?app_nil_r;
            repeat split; eauto ].
Qed.

(** ** Runs *)

Lemma run_nil (s s' : St) : run [] s = Done tt s' -> s' = s.
Proof. intros E. inversion E. reflexivity. Qed.

Lemma run_cons (c : call) (cs : list call) (s s' : St) :
  run (c :: cs) s = Done tt s' ->
  exists s1, step c s = Done tt s1 /\ run cs s1 = Done tt s'.
Proof.
  cbn [run]. unfold bind at 1.
  destruct (step c s) as [[] s1|] eqn:E1; [|discriminate].
  intros E. exists s1. split; [reflexivity | exact E].
Qed.

Lemma wrap64_add_l (a b : Z) : wrap64 (wrap64 a + b) = wrap64 (a + b).
Proof. unfold wrap64. apply Zplus_mod_idemp_l. Qed.

Lemma wrap64_add_r (a b : Z) : wrap64 (a + wrap64 b) = wrap64 (a + b).
Proof. unfold wrap64. apply Zplus_mod_idemp_r. Qed.

Lemma wrap64_idem (a : Z) : wrap64 (wrap64 a) = wrap64 a.
Proof. unfold wrap64. apply Zmod_mod. Qed.

(** The resolver is the same after a run. *)
Lemma run_keeps_resolver (cs : list call) :
  forall s s' : St,
    run cs s = Done tt s' -> p_whereInPython s' = p_whereInPython s.
Proof.
  induction cs as [|c cs IH]; intros s s' E.
  - apply run_nil in E. subst. reflexivity.
  - apply run_cons in E. destruct E as (s1 & E1 & E).
    apply step_effect in E1. destruct E1 as [Ew _].
    rewrite (IH _ _ E). exact Ew.
Qed.

(** What a run adds to the sample file, and what it does beside. *)
Lemma run_output (cs : list call) :
  forall s s' : St,
    run cs s = Done tt s' ->
    exists new,
      sampleFile s' = sampleFile s ++ new /\
      (List.length new <= List.length cs)%nat /\
      raised s' =
        raised s ++
        (if SCALENE_DISABLE_SIGNALS then []
         else repeat MallocSignal (List.length new)) /\
      map line_seq new =
        map (fun i => wrap64 (mallocTriggered s + freeTriggered s + Z.of_nat i))
            (seq 0 (List.length new)) /\
      wrap64 (mallocTriggered s') =
        wrap64 (mallocTriggered s +
                Z.of_nat (List.length (filter is_malloc_line new))) /\
      wrap64 (freeTriggered s') =
        wrap64 (freeTriggered s +
                Z.of_nat (List.length
                            (filter (fun l => negb (is_malloc_line l)) new))).
Proof.
  induction cs as [|c cs IH]; intros s s' E.
  - apply run_nil in E. subst. exists [].
    rewrite !app_nil_r. cbn. rewrite !Z.add_0_r.
    destruct SCALENE_DISABLE_SIGNALS; repeat split; auto using app_nil_r.
  - apply run_cons in E. destruct E as (s1 & E1 & E).
    apply IH in E. destruct E as (new & Ef & El & Er & Es & Em & Efr).
    apply step_effect in E1.
    destruct E1 as [_ [(Ef1 & Er1 & Em1 & Efr1 & _) |
                       (l & wh & loc & _ & _ & Ef1 & Er1 & Es1 & _ & _ & Ek)]].
    + exists new. rewrite Ef, Er, Es, Em, Efr, Ef1, Er1, Em1, Efr1.
      repeat split; auto. cbn. lia.
    + exists (l :: new). rewrite Ef, Er, Ef1, Er1, <- !app_assoc.
      split; [reflexivity|]. split; [cbn; lia|].
      split.
      { destruct SCALENE_DISABLE_SIGNALS; reflexivity. }
      assert (Esum : wrap64 (mallocTriggered s1 + freeTriggered s1) =
                     wrap64 (mallocTriggered s + freeTriggered s + 1)).
      { destruct c; destruct Ek as (_ & -> & ->);
          rewrite ?wrap64_add_l, ?wrap64_add_r; f_equal; lia. }
      split.
      { cbn [map List.length seq]. rewrite Es1, Z.add_0_r. f_equal.
        rewrite Es, <- seq_shift, map_map. apply map_ext. intros i.
        rewrite <- wrap64_add_l, Esum, wrap64_add_l. f_equal. lia. }
      cbn [filter].
      destruct c; destruct Ek as (Ekind & Em2 & Ef2).
      * assert (Eml : is_malloc_line l = true)
          by (unfold is_malloc_line; rewrite Ekind; reflexivity).
        rewrite Eml. cbn [negb List.length].
        rewrite Em, Efr, Em2, Ef2, wrap64_add_l.
        split; f_equal; lia.
      * assert (Eml : is_malloc_line l = false)
          by (unfold is_malloc_line; destruct Ekind as [-> | ->]; reflexivity).
        rewrite Eml. cbn [negb List.length].
        rewrite Em, Efr, Em2, Ef2, wrap64_add_l.
        split; f_equal; lia.
      * assert (Eml : is_malloc_line l = true)
          by (unfold is_malloc_line; rewrite Ekind; reflexivity).
        rewrite Eml. cbn [negb List.length].
        rewrite Em, Efr, Em2, Ef2, wrap64_add_l.
        split; f_equal; lia.
Qed.

(** X1.  A run only appends to the sample file, and at most one line for
    each call. *)
Theorem run_appends_at_most_one_line_per_call
        (cs : list call) (s s' : St) :
  run cs s = Done tt s' ->
  exists new,
    sampleFile s' = sampleFile s ++ new /\
    (List.length new <= List.length cs)%nat.
Proof.
  intros E. destruct (run_output cs s s' E) as (new & Ef & El & _).
  exists new. split; assumption.
Qed.

(** X2.  Over a run, the signals raised are as many as the lines written, and
    each is the malloc signal; [FreeSignal] is never raised.  With signals
    compiled out none is raised. *)
Theorem signals_raised_match_lines_written
        (cs : list call) (s s' : St) (new : list SampleLine) :
  run cs s = Done tt s' ->
  sampleFile s' = sampleFile s ++ new ->
  raised s' =
    raised s ++
    (if SCALENE_DISABLE_SIGNALS then []
     else repeat MallocSignal (List.length new)).
Proof.
  intros E Enew.
  destruct (run_output cs s s' E) as (new0 & Ef & _ & Er & _).
  rewrite Ef in Enew. apply app_inv_head in Enew. subst new0. exact Er.
Qed.

(** X3.  The lines a run writes are numbered consecutively, modulo 2^64,
    from the sum of the two trigger counters at its start. *)
Theorem lines_are_numbered_consecutively
        (cs : list call) (s s' : St) (new : list SampleLine) :
  run cs s = Done tt s' ->
  sampleFile s' = sampleFile s ++ new ->
  map line_seq new =
    map (fun i => wrap64 (mallocTriggered s + freeTriggered s + Z.of_nat i))
        (seq 0 (List.length new)).
Proof.
  intros E Enew.
  destruct (run_output cs s s' E) as (new0 & Ef & _ & _ & Es & _).
  rewrite Ef in Enew. apply app_inv_head in Enew. subst new0. exact Es.
Qed.

(** X4.  Over a run, the malloc-trigger counter advances, modulo 2^64, by the
    number of lines of kind [M] written, and the free-trigger counter by the
    number of the other lines. *)
Theorem trigger_counters_count_lines_by_kind
        (cs : list call) (s s' : St) (new : list SampleLine) :
  run cs s = Done tt s' ->
  sampleFile s' = sampleFile s ++ new ->
  wrap64 (mallocTriggered s') =
    wrap64 (mallocTriggered s +
            Z.of_nat (List.length (filter is_malloc_line new))) /\
  wrap64 (freeTriggered s') =
    wrap64 (freeTriggered s +
            Z.of_nat (List.length
                        (filter (fun l => negb (is_malloc_line l)) new))).
Proof.
  intros E Enew.
  destruct (run_output cs s s' E) as (new0 & Ef & _ & _ & _ & Em & Efr).
  rewrite Ef in Enew. apply app_inv_head in Enew. subst new0.
  split; assumption.
Qed.

(** X5.  While no resolver is installed, or the one installed fails, no run
    writes a line, raises a signal or moves the trigger counters or the
    last-trigger pointer, whatever the samplers answer. *)
Theorem no_resolver_no_output (cs : list call) :
  forall s s' : St,
    (p_whereInPython s = None \/
     exists whereInPython,
       p_whereInPython s = Some whereInPython /\ whereInPython tt = None) ->
    run cs s = Done tt s' ->
    sampleFile s' = sampleFile s /\
    raised s' = raised s /\
    mallocTriggered s' = mallocTriggered s /\
    freeTriggered s' = freeTriggered s /\
    _lastMallocTrigger s' = _lastMallocTrigger s.
Proof.
  induction cs as [|c cs IH]; intros s s' Hw E.
  - apply run_nil in E. subst. repeat split.
  - apply run_cons in E. destruct E as (s1 & E1 & E).
    apply step_effect in E1.
    destruct E1 as [Ew [(Ef1 & Er1 & Em1 & Efr1 & El1) |
                        (l & wh & loc & Ewh & Eloc & _)]].
    + rewrite <- Ew in Hw. destruct (IH _ _ Hw E) as (Ef & Er & Em & Efr & El).
      rewrite Ef, Er, Em, Efr, El. repeat split; assumption.
    + exfalso. destruct Hw as [Hn | (wh' & Hs & Hf)]; rewrite Ewh in *.
      * discriminate Hn.
      * inversion Hs; subst wh'. rewrite Eloc in Hf. discriminate Hf.
Qed.

(** X6.  A line a call writes carries the process id; its kind is [M] when
    the call is [malloc] or [memalign], and [f] or [F] when it is [free]. *)
Theorem line_carries_pid_and_kind_of_call
        (c : call) (s s' : St) (l : SampleLine) :
  step c s = Done tt s' ->
  sampleFile s' = sampleFile s ++ [l] ->
  line_pid l = getpid /\
  match c with
  | Free _ => line_kind l = "f"%char \/ line_kind l = "F"%char
  | _ => line_kind l = "M"%char
  end.
Proof.
  intros E El. apply step_effect in E.
  destruct E as [_ [(Ef & _) |
                    (l0 & wh & loc & _ & _ & Ef & _ & _ & Ep & _ & Ek)]].
  - rewrite Ef in El. symmetry in El. apply app_one_neq in El. contradiction.
  - rewrite Ef in El. apply app_one_inj in El. subst l0.
    split; [exact Ep|]. destruct c; tauto.
Qed.

(** ** Calls from within the layer, and calls that are not sampled *)

(** X7.  A call made while the recursion marker is set (an allocation of the
    layer's own reporting) is passed to the allocator underneath and nothing
    else happens: no size is asked for, no sampler is fed, no assertion is
    checked, and the marker is still set on return. *)
Theorem nested_calls_skip_sampling (s : St) :
  inMalloc s = true ->
  (forall sz,
      malloc sz s =
        Done (fst (super_malloc (super s) sz))
             (set_super (snd (super_malloc (super s) sz)) s)) /\
  (forall alignment sz,
      memalign alignment sz s =
        Done (fst (super_memalign (super s) alignment sz))
             (set_super (snd (super_memalign (super s) alignment sz)) s)) /\
  (forall p,
      p <> nullptr ->
      free p s = Done tt (set_super (super_free (super s) p) s)).
Proof.
  open_state s. intros Eg. cbn in Eg. subst.
  split; [|split]; intros.
  - go; bool_facts; subst; reflexivity.
  - go; bool_facts; subst; reflexivity.
  - match goal with Ep : _ <> nullptr |- _ => apply Z.eqb_neq in Ep end.
    go; reflexivity.
Qed.


(** X9.  [free] of the null pointer does nothing at all: no sampler is fed,
    the allocator underneath is not called, the state is as before. *)
Theorem free_of_null_is_a_no_op (s : St) : free nullptr s = Done tt s.
Proof. open_state s. go. reflexivity. Qed.

(** X10.  A [malloc] whose block the allocator reports as of size 0 is not
    sampled: the pointer is returned and only the allocator has changed. *)
Theorem malloc_of_zero_size_block_is_not_sampled
        (s : St) (sz : Z) (p : ptr) (h' : H) :
  super_malloc (super s) sz = (p, h') ->
  super_getSize h' p = 0 ->
  malloc sz s = Done p (set_super h' s).
Proof.
  open_state s. intros Em Ez. cbn in Em.
  go; try reflexivity; bool_facts; subst; try reflexivity; lia.
Qed.

(** ** Triggers *)

(** X11.  The line of a malloc trigger has kind [M] and carries the weight
    the sampler returned.  Its address is the new block's only while the
    freed-last-trigger flag is clear: when the flag is still set from a free
    that was not reported, the line carries the address of the previous
    trigger instead.  This is [register_malloc], which [malloc] and
    [memalign] both go through. *)
Theorem malloc_line_reports_last_trigger_when_flag_set
        (s : St) (realSize : Z) (p : ptr) (inPythonAllocator : bool)
        (weight : Z) (ms' : MS) whereInPython loc :
  realSize <> 0 ->
  sample (_mallocSampler s) realSize = (weight, ms') ->
  weight <> 0 ->
  p_whereInPython s = Some whereInPython ->
  whereInPython tt = Some loc ->
  exists s' l,
    register_malloc realSize p inPythonAllocator s = Done tt s' /\
    sampleFile s' = sampleFile s ++ [l] /\
    line_kind l = "M"%char /\
    line_count l = weight /\
    line_address l =
      (if _freedLastMallocTrigger s then _lastMallocTrigger s else p).
Proof.
  open_state s. intros Er Es Ew Ewh Eloc. cbn in Es, Ewh. subst.
  apply Z.eqb_neq in Er, Ew.
  go; do 2 eexists; (split; [reflexivity|]); repeat split.
Qed.


(** X13.  A free that is sampled and written asks for the block's size
    before releasing it, takes that size back from the malloc sampler, and
    releases the block.  It advances the free-trigger counter by one (modulo
    2^64) and leaves the malloc-trigger counter and the last-trigger pointer
    as they were: the pointer stays the one to match after it was reported
    freed. *)
Theorem free_trigger_updates_state
        (s : St) (p : ptr) (weight : Z) (fs' : FS) whereInPython loc :
  p <> nullptr ->
  inMalloc s = false ->
  sample (_freeSampler s) (super_getSize (super s) p) = (weight, fs') ->
  weight <> 0 ->
  p_whereInPython s = Some whereInPython ->
  whereInPython tt = Some loc ->
  exists s' l,
    free p s = Done tt s' /\
    sampleFile s' = sampleFile s ++ [l] /\
    line_count l = weight /\
    freeTriggered s' = wrap64 (freeTriggered s + 1) /\
    mallocTriggered s' = mallocTriggered s /\
    _lastMallocTrigger s' = _lastMallocTrigger s /\
    _freedLastMallocTrigger s' = false /\
    _mallocSampler s' =
      unsample (_mallocSampler s) (super_getSize (super s) p) /\
    _freeSampler s' = fs' /\
    super s' = super_free (super s) p.
Proof.
  open_state s. intros Ep Eg Es Ew Ewh Eloc. cbn in Eg, Es, Ewh. subst.
  apply Z.eqb_neq in Ep, Ew.
  go; do 2 eexists; (split; [reflexivity|]); repeat split.
Qed.

(** X14.  A free of the last trigger that is not written, because the free
    sampler does not fire or because the place cannot be resolved, sets the
    flag and nothing is reported yet: beside the flag only the two samplers
    and the allocator have changed.  The report is left to the next line. *)
Theorem unreported_free_of_last_trigger_sets_flag
        (s : St) (p : ptr) (weight : Z) (fs' : FS) :
  p <> nullptr ->
  p = _lastMallocTrigger s ->
  inMalloc s = false ->
  sample (_freeSampler s) (super_getSize (super s) p) = (weight, fs') ->
  (weight = 0 \/ p_whereInPython s = None \/
   exists whereInPython,
     p_whereInPython s = Some whereInPython /\ whereInPython tt = None) ->
  free p s =
    Done tt
         (set_super (super_free (super s) p)
            (set_freedLastMallocTrigger true
               (set_freeSampler fs'
                  (set_mallocSampler
                     (unsample (_mallocSampler s) (super_getSize (super s) p))
                     s)))).
Proof.
  open_state s. intros Ep El Eg Es Hw. cbn in El, Eg, Es, Hw. subst.
  apply Z.eqb_neq in Ep.
  assert (Err : (s_last =? s_last) = true) by apply Z.eqb_refl.
  destruct Hw as [-> | [Hn | (wh & Hs & Hf)]]; subst; go; reflexivity.
Qed.

(** X15.  An allocation that is freed again, neither call firing its
    sampler: if [unsample] takes back what [sample] added, the malloc sampler
    is where it was before the two calls, while the native attribution
    counter keeps the bytes of the block, which no free takes back. *)
Theorem unsampled_malloc_then_free_restores_sampler
        (s : St) (sz : Z) (p : ptr) (h1 : H) (ms1 : MS) (fs1 : FS) :
  inMalloc s = false ->
  super_malloc (super s) sz = (p, h1) ->
  p <> nullptr ->
  0 < super_getSize h1 p ->
  sample (_mallocSampler s) (super_getSize h1 p) = (0, ms1) ->
  unsample ms1 (super_getSize h1 p) = _mallocSampler s ->
  sample (_freeSampler s) (super_getSize h1 p) = (0, fs1) ->
  run [Malloc sz; Free p] s =
    Done tt
         (set_super (super_free h1 p)
            (set_freedLastMallocTrigger
               (_freedLastMallocTrigger s || (p =? _lastMallocTrigger s))
               (set_freeSampler fs1
                  (set_cCount (wrap64 (_cCount s + super_getSize h1 p)) s)))).
Proof.
  open_state s. intros Eg Em Ep Esz Es Eu Ef. cbn in Eg, Em, Es, Eu, Ef. subst.
  assert (Esz' : (super_getSize h1 p =? 0) = false) by (apply Z.eqb_neq; lia).
  apply Z.eqb_neq in Ep. apply Z.ltb_lt in Esz.
  cbv beta iota delta [run].
  go; rewrite ?orb_true_r, ?orb_false_r; reflexivity.
Qed.

(** ** The fraction as a number *)

(** X18.  With the managed counter a 64-bit value, the fraction on a line is
    never a NaN: the numerator is at least 1, so 0/0 cannot occur.  When the
    64-bit sum of the two counters wraps to 0 the fraction is +infinity. *)
Theorem fraction_is_never_nan
        (sig : AllocSignal) (count : Z) (p : ptr) (loc : Location) (s : St) :
  0 <= _pythonCount s < 2 ^ 64 ->
  exists s' l,
    writeCount sig count p loc s = Done tt s' /\
    sampleFile s' = sampleFile s ++ [l] /\
    line_fraction l <> S754_nan /\
    (wrap64 ((if _pythonCount s =? 0 then 1 else _pythonCount s) + _cCount s)
     = 0 ->
     line_fraction l = S754_infinity false).
Proof.
  open_state s. cbn [_pythonCount _cCount sampleFile]. intros Hpy. reduce.
  assert (Hw : forall x, 0 <= wrap64 x < 2 ^ 64)
    by (intros x; unfold wrap64; apply Z.mod_pos_bound; reflexivity).
  destruct (s_py =? 0) eqn:E; reduce;
    do 2 eexists; (split; [reflexivity|]); (split; [reflexivity|]);
    cbn [line_fraction].
  - destruct (of_uint64_finite 1 ltac:(cbn; lia)) as (mx & ex & ->).
    split; [apply div_by_uint64_not_nan, Hw|].
    intros ->. reflexivity.
  - apply Z.eqb_neq in E.
    destruct (of_uint64_finite s_py ltac:(lia)) as (mx & ex & ->).
    split; [apply div_by_uint64_not_nan, Hw|].
    intros ->. reflexivity.
Qed.

End Theory.

(** * The properties at work

    Each property above is applied to a run of the stand-ins; where the
    code departs from what is expected of it, a run shows the departure. *)

(** C1, departure.  The block at 4096 is the last malloc trigger; the block
    at 8192 is freed and the free is sampled.  The line has kind [F], and
    its address is [nullptr], not 8192. *)
Lemma free_sample_address_is_null :
  exists s l,
    demo_run 1000 16 [Malloc 1000; Malloc 24] = Done tt s /\
    _lastMallocTrigger s = 4096 /\
    _freedLastMallocTrigger s = false /\
    lines_of (demo_free 1000 16 8192 s) = sampleFile s ++ [l] /\
    line_kind l = "F"%char /\
    line_address l = nullptr /\
    line_address l <> 8192.
Proof.
  do 2 eexists. split; [vm_compute; reflexivity|].
  repeat split; try (vm_compute; reflexivity).
  vm_compute. discriminate.
Qed.

(** C1 at work: the free of the last malloc trigger itself, sampled. *)
Lemma free_trigger_kind_and_address_witness :
  exists s' l,
    demo_free 1000 16 4096 (demo_state 1000 16 [Malloc 1000; Malloc 24]) =
      Done tt s' /\
    sampleFile s' =
      sampleFile (demo_state 1000 16 [Malloc 1000; Malloc 24]) ++ [l] /\
    line_kind l = "f"%char /\ line_address l = 4096.
Proof.
  destruct (free_trigger_kind_and_address
              (mallocSamplerOps := RateSampler 1000)
              (freeSamplerOps := RateSampler 1)
              (superOps := Arena 16 (2 ^ 32)) (env := unix)
              (demo_state 1000 16 [Malloc 1000; Malloc 24])
              4096 1008 0 (fun _ => Some here) here)
    as (s' & l & E & El & Hf & _).
  - unfold nullptr. lia.
  - vm_compute. reflexivity.
  - vm_compute. reflexivity.
  - lia.
  - vm_compute. reflexivity.
  - reflexivity.
  - exists s', l. split; [exact E|]. split; [exact El|].
    apply Hf. left. vm_compute. reflexivity.
Defined.

(** C2.  The code where it fails its own comment in [writeCount], "Ensure we
    don't report last-malloc-freed multiple times".  One malloc trigger, at
    4096.  The block is freed and reported with kind [f]; the allocator hands
    the address out again, to an allocation that is not sampled; that block
    is freed, and since [_lastMallocTrigger] still holds 4096 the one trigger
    is reported as freed a second time. *)
Lemma reused_address_reported_freed_twice :
  exists s,
    demo_run 1000 16 [Malloc 1000; Free 4096; Malloc 16; Free 4096] =
      Done tt s /\
    mallocTriggered s = 1 /\
    map summary (sampleFile s) =
      [("M"%char, 0, 4096); ("f"%char, 1, 4096); ("f"%char, 2, 4096)].
Proof.
  eexists. split; [vm_compute; reflexivity|].
  split; vm_compute; reflexivity.
Qed.

(** X19 at work: the sampled free of the last trigger writes its line and
    leaves the flag cleared; and the run above, with its two frees of the
    stored address, has two lines of kind [f], no more. *)
Lemma freed_flag_set_by_matching_free_cleared_by_write_witness :
  _freedLastMallocTrigger (demo_state 1000 16 [Malloc 1000; Free 4096]) = false /\
  Nat.le
    (f_lines (sampleFile
                (demo_state 1000 16
                            [Malloc 1000; Free 4096; Malloc 16; Free 4096])))
    (0 + 2)%nat.
Proof.
  split.
  - apply (proj1 (proj2
      (proj1 (freed_flag_set_by_matching_free_cleared_by_write
                (mallocSamplerOps := RateSampler 1000)
                (freeSamplerOps := RateSampler 1)
                (superOps := Arena 16 (2 ^ 32)) (env := unix))
         (Free 4096)
         (demo_state 1000 16 [Malloc 1000])
         (demo_state 1000 16 [Malloc 1000; Free 4096])
         ltac:(vm_compute; reflexivity)))).
    vm_compute. discriminate.
  - apply (proj2 (freed_flag_set_by_matching_free_cleared_by_write
                    (mallocSamplerOps := RateSampler 1000)
                    (freeSamplerOps := RateSampler 1)
                    (superOps := Arena 16 (2 ^ 32)) (env := unix))
                 [Malloc 1000; Free 4096; Malloc 16; Free 4096]
                 (demo_fresh (Some (fun _ => Some here)))).
    + vm_compute. reflexivity.
    + reflexivity.
Defined.

(** C3, departure.  Every call is sampled; the first [malloc] of a fresh
    process writes sequence number 0, not 1. *)
Lemma first_malloc_trigger_has_sequence_zero :
  map summary (lines_of (demo_run 1 16 [Malloc 1000])) =
    [("M"%char, 0, 4096)].
Proof. vm_compute. reflexivity. Qed.

(** C3 at work, on the same call. *)
Lemma sequence_number_is_counter_sum_before_increment_witness :
  (sampleFile (demo_state 1 16 [Malloc 1000]) =
     sampleFile (demo_fresh (Some (fun _ => Some here))) \/
   exists l,
     sampleFile (demo_state 1 16 [Malloc 1000]) =
       sampleFile (demo_fresh (Some (fun _ => Some here))) ++ [l] /\
     line_seq l = wrap64 (0 + 0)) /\
  (exists s' l,
      demo_malloc 1 16 1000 (demo_fresh (Some (fun _ => Some here))) =
        Done 4096 s' /\
      sampleFile s' = [l] /\ line_kind l = "M"%char /\ line_seq l = 0 /\
      mallocTriggered s' = 1).
Proof.
  split.
  - apply (proj1 (sequence_number_is_counter_sum_before_increment
                    (mallocSamplerOps := RateSampler 1)
                    (freeSamplerOps := RateSampler 1)
                    (superOps := Arena 16 (2 ^ 32)) (env := unix))
                 (Malloc 1000)).
    vm_compute. reflexivity.
  - apply (proj2 (sequence_number_is_counter_sum_before_increment
                    (mallocSamplerOps := RateSampler 1)
                    (freeSamplerOps := RateSampler 1)
                    (superOps := Arena 16 (2 ^ 32)) (env := unix))
                 arena0 (snd (arena_malloc 16 (2 ^ 32) arena0 1000))
                 0 0 0 (fun _ => Some here) here 1000 4096 1008).
    + vm_compute. reflexivity.
    + unfold nullptr. lia.
    + vm_compute. reflexivity.
    + vm_compute. reflexivity.
    + lia.
    + reflexivity.
Defined.

(** C4, departure.  An allocator with blocks of 64 bytes.  A request of 16
    bytes gets 64: the delivered size is at least the requested one, the
    request is not smaller than 16 bytes, and yet the call fails on an
    assertion.  A request of 8 bytes gets 64 too, more than twice the
    request, and the call completes. *)
Lemma memalign_asserts_on_large_request :
  super_getSize (H := ArenaState) (SuperHeap := Arena 64 (2 ^ 32))
                (snd (arena_malloc 64 (2 ^ 32) arena0 16)) 4096 = 64 /\
  16 <= 64 /\ ~ 16 < 16 /\
  demo_memalign 1 64 16 16 (demo_fresh (Some (fun _ => Some here))) =
    AssertionFailed /\
  super_getSize (H := ArenaState) (SuperHeap := Arena 64 (2 ^ 32))
                (snd (arena_malloc 64 (2 ^ 32) arena0 8)) 4096 = 64 /\
  8 < 16 /\ ~ 64 <= 2 * 8 /\
  exists s',
    demo_memalign 1 64 16 8 (demo_fresh (Some (fun _ => Some here))) =
      Done 4096 s'.
Proof.
  repeat split; try lia; try (vm_compute; reflexivity).
  eexists. vm_compute. reflexivity.
Qed.

(** C4 at work: a request of 64 bytes served with 64 bytes. *)
Lemma memalign_assertions_iff_witness :
  exists s',
    demo_memalign 1 16 16 64 (demo_fresh (Some (fun _ => Some here))) =
      Done 4096 s'.
Proof.
  apply (proj2 (memalign_assertions_iff
                  (mallocSamplerOps := RateSampler 1)
                  (superOps := Arena 16 (2 ^ 32)) (env := unix)
                  (demo_fresh (Some (fun _ => Some here))) 16 64 4096
                  (snd (arena_malloc 16 (2 ^ 32) arena0 64))
                  ltac:(reflexivity) ltac:(vm_compute; reflexivity)
                  ltac:(unfold nullptr; lia))).
  vm_compute. repeat split; intros; discriminate.
Defined.

(** C5, departure.  After the malloc trigger both counters are 0; the
    sampled free that follows writes its line and leaves the managed counter
    at 1. *)
Lemma free_trigger_bumps_managed_counter :
  exists s s',
    demo_run 1 16 [Malloc 1000] = Done tt s /\
    _pythonCount s = 0 /\ _cCount s = 0 /\
    demo_free 1 16 4096 s = Done tt s' /\
    map line_kind (sampleFile s') = ["M"%char; "f"%char] /\
    _pythonCount s' = 1 /\ _cCount s' = 0.
Proof.
  do 2 eexists. split; [vm_compute; reflexivity|].
  split; [vm_compute; reflexivity|]. split; [vm_compute; reflexivity|].
  split; [vm_compute; reflexivity|].
  repeat split; vm_compute; reflexivity.
Qed.

(** C5 at work, on the state the malloc trigger left. *)
Lemma attribution_counters_across_triggers_witness :
  (exists s',
      process_malloc (env := unix) 1008 4096 (demo_state 1 16 [Malloc 1000]) =
        Done tt s' /\
      _pythonCount s' = 0 /\ _cCount s' = 0) /\
  (exists s',
      process_free (env := unix) 1008 (demo_state 1 16 [Malloc 1000]) =
        Done tt s' /\
      _cCount s' = 0 /\ _pythonCount s' = 1) /\
  (exists s',
      demo_free 1 16 4096 (demo_state 1 16 [Malloc 1000]) = Done tt s' /\
      _cCount s' = 0 /\
      (_pythonCount s' = 0 \/
       (0 = 0 /\ _pythonCount s' = 1 /\
        sampleFile s' <> sampleFile (demo_state 1 16 [Malloc 1000])))).
Proof.
  apply (attribution_counters_across_triggers
           (mallocSamplerOps := RateSampler 1)
           (freeSamplerOps := RateSampler 1)
           (superOps := Arena 16 (2 ^ 32)) (env := unix)
           (demo_state 1 16 [Malloc 1000]) 1008 4096 4096
           (fun _ => Some here) here).
  - vm_compute. reflexivity.
  - reflexivity.
Defined.

(** C6 at work: no resolver is installed. *)
Lemma symbolication_failure_suppresses_sample_witness :
  process_malloc (env := unix) 1008 4096 (demo_fresh None) =
    Done tt (demo_fresh None) /\
  process_free (env := unix) 1008 (demo_fresh None) =
    Done tt (demo_fresh None).
Proof.
  apply (symbolication_failure_suppresses_sample (env := unix)).
  left. reflexivity.
Defined.

(** C8 at work: a sampled [malloc], then the sampled [free] of its block. *)
Lemma both_triggers_raise_malloc_signal_witness :
  raised (demo_state 1 16 [Malloc 1000]) = [MallocSignal] /\
  raised (demo_state 1 16 [Malloc 1000; Free 4096]) =
    [MallocSignal; MallocSignal].
Proof.
  split.
  - destruct (both_triggers_raise_malloc_signal
                (mallocSamplerOps := RateSampler 1)
                (freeSamplerOps := RateSampler 1)
                (superOps := Arena 16 (2 ^ 32)) (env := unix)
                (Malloc 1000)
                (demo_fresh (Some (fun _ => Some here)))
                (demo_state 1 16 [Malloc 1000])
                ltac:(reflexivity) ltac:(vm_compute; reflexivity))
      as [[E _] | [l [_ E]]].
    + vm_compute in E. discriminate E.
    + exact E.
  - destruct (both_triggers_raise_malloc_signal
                (mallocSamplerOps := RateSampler 1)
                (freeSamplerOps := RateSampler 1)
                (superOps := Arena 16 (2 ^ 32)) (env := unix)
                (Free 4096)
                (demo_state 1 16 [Malloc 1000])
                (demo_state 1 16 [Malloc 1000; Free 4096])
                ltac:(reflexivity) ltac:(vm_compute; reflexivity))
      as [[E _] | [l [_ E]]].
    + vm_compute in E. discriminate E.
    + exact E.
Defined.

(** C9 at work: a request above what the arena serves. *)
Lemma allocation_failure_has_no_sampling_effect_witness :
  demo_malloc 1 16 (2 ^ 40) (demo_fresh None) =
    Done nullptr (set_super arena0 (demo_fresh None)) /\
  demo_memalign 1 16 16 (2 ^ 40) (demo_fresh None) =
    Done nullptr (set_super arena0 (demo_fresh None)).
Proof.
  split.
  - apply (proj1 (allocation_failure_has_no_sampling_effect
                    (mallocSamplerOps := RateSampler 1)
                    (superOps := Arena 16 (2 ^ 32)) (env := unix)
                    (demo_fresh None))).
    vm_compute. reflexivity.
  - apply (proj2 (allocation_failure_has_no_sampling_effect
                    (mallocSamplerOps := RateSampler 1)
                    (superOps := Arena 16 (2 ^ 32)) (env := unix)
                    (demo_fresh None))).
    vm_compute. reflexivity.
Defined.

(** C10 at work: 64 bytes through [memalign] and through [malloc], neither
    sampled. *)
Lemma memalign_accrues_managed_malloc_accrues_native_witness :
  (_pythonCount
     (final (demo_memalign 1000 16 16 64 (demo_fresh None)) (demo_fresh None))
   = 64 /\
   _cCount
     (final (demo_memalign 1000 16 16 64 (demo_fresh None)) (demo_fresh None))
   = 0) /\
  (_pythonCount
     (final (demo_malloc 1000 16 64 (demo_fresh None)) (demo_fresh None))
   = 0 /\
   _cCount
     (final (demo_malloc 1000 16 64 (demo_fresh None)) (demo_fresh None))
   = 64).
Proof.
  split.
  - destruct (proj1 (proj1 (memalign_accrues_managed_malloc_accrues_native
                       (mallocSamplerOps := RateSampler 1000)
                       (superOps := Arena 16 (2 ^ 32)) (env := unix)
                       (demo_fresh None) ltac:(reflexivity))
                    16 64 4096 (snd (arena_malloc 16 (2 ^ 32) arena0 64)) 0 64
                    ltac:(vm_compute; reflexivity)
                    ltac:(unfold nullptr; lia)
                    ltac:(vm_compute; discriminate)
                    ltac:(right; vm_compute; discriminate)
                    ltac:(vm_compute; discriminate)
                    ltac:(vm_compute; reflexivity))
                    ltac:(left; reflexivity))
      as (s' & E & Epy & Ec).
    unfold demo_memalign. rewrite E. cbn [final].
    rewrite Epy, Ec. split; vm_compute; reflexivity.
  - destruct (proj1 (proj2 (memalign_accrues_managed_malloc_accrues_native
                       (mallocSamplerOps := RateSampler 1000)
                       (superOps := Arena 16 (2 ^ 32)) (env := unix)
                       (demo_fresh None) ltac:(reflexivity))
                    64 4096 (snd (arena_malloc 16 (2 ^ 32) arena0 64)) 0 64
                    ltac:(vm_compute; reflexivity)
                    ltac:(unfold nullptr; lia)
                    ltac:(vm_compute; reflexivity)
                    ltac:(vm_compute; reflexivity))
                    ltac:(left; reflexivity))
      as (s' & E & Epy & Ec).
    unfold demo_malloc. rewrite E. cbn [final].
    rewrite Epy, Ec. split; vm_compute; reflexivity.
Defined.

(** * Construction *)

Lemma sighandler_eqb_eq (a b : sighandler) :
  sighandler_eqb a b = true <-> a = b.
Proof.
  destruct a, b; cbn; split; intros E; try discriminate; try reflexivity.
  - apply Z.eqb_eq in E. subst. reflexivity.
  - inversion E. apply Z.eqb_refl.
Qed.

(** The dispositions the constructor leaves, signal by signal. *)
Lemma SampleHeap_ctor_dispositions {lib : SignalLibrary} (st : SignalState) :
  signal_init_lock st = false ->
  exists st',
    SampleHeap_ctor st = Some st' /\
    signal_init_lock st' = false /\
    forall n,
      disposition st' n =
        if (n =? signo MallocSignal) || (n =? signo FreeSignal)
        then {| sa_handler :=
                  if sighandler_eqb (sa_handler (disposition st n)) SIG_DFL
                  then SIG_IGN else sa_handler (disposition st n);
                sa_flags := signal_flags n;
                sa_mask := signal_mask n |}
        else disposition st n.
Proof.
  destruct st as [d lk]. cbn. intros ->.
  unfold SampleHeap_ctor, lock, signal, unlock. cbn.
  destruct (sighandler_eqb (sa_handler (d 24)) SIG_DFL) eqn:E24; cbn;
    destruct (sighandler_eqb (sa_handler (d 25)) SIG_DFL) eqn:E25; cbn;
    eexists; (split; [reflexivity|]); (split; [reflexivity|]);
    intros n; cbn;
    destruct (n =? 24) eqn:N24; destruct (n =? 25) eqn:N25;
    try (apply Z.eqb_eq in N24; subst n);
    try (apply Z.eqb_eq in N25; subst n);
    try discriminate;
    cbn; rewrite ?E24, ?E25; try reflexivity.
Qed.

(** X16.  Construction, the lock being free, returns with the lock free
    again.  For each of the two notification signals, a default handler has
    become "ignore", so that raising the signal cannot end the process, and
    any other handler, one of the host program or "ignore", is the one
    found; the flags and the mask beside it are those [signal] installs,
    whatever the host had set.  No other signal is touched. *)
Theorem constructor_ignores_default_keeps_handlers
        {lib : SignalLibrary} (st : SignalState) :
  signal_init_lock st = false ->
  exists st',
    SampleHeap_ctor st = Some st' /\
    signal_init_lock st' = false /\
    (forall sig,
        sa_handler (disposition st (signo sig)) = SIG_DFL ->
        sa_handler (disposition st' (signo sig)) = SIG_IGN) /\
    (forall sig,
        sa_handler (disposition st (signo sig)) <> SIG_DFL ->
        sa_handler (disposition st' (signo sig)) =
          sa_handler (disposition st (signo sig))) /\
    (forall sig,
        sa_flags (disposition st' (signo sig)) = signal_flags (signo sig) /\
        sa_mask (disposition st' (signo sig)) = signal_mask (signo sig)) /\
    (forall n,
        n <> signo MallocSignal -> n <> signo FreeSignal ->
        disposition st' n = disposition st n) /\
    (forall sig, sa_handler (disposition st' (signo sig)) <> SIG_DFL).
Proof.
  intros El. destruct (SampleHeap_ctor_dispositions st El) as (st' & E & El' & Ed).
  exists st'. split; [exact E|]. split; [exact El'|].
  assert (Esig : forall sig,
             (signo sig =? signo MallocSignal) || (signo sig =? signo FreeSignal)
             = true) by (intros []; reflexivity).
  split; [|split; [|split; [|split]]].
  - intros sig Hd. rewrite Ed, Esig. cbn [sa_handler]. rewrite Hd. reflexivity.
  - intros sig Hd. rewrite Ed, Esig. cbn [sa_handler].
    destruct (sighandler_eqb (sa_handler (disposition st (signo sig))) SIG_DFL)
      eqn:Eq; [|reflexivity].
    apply sighandler_eqb_eq in Eq. contradiction.
  - intros sig. rewrite Ed, Esig. split; reflexivity.
  - intros n H1 H2. rewrite Ed.
    apply Z.eqb_neq in H1, H2. rewrite H1, H2. reflexivity.
  - intros sig. rewrite Ed, Esig. cbn [sa_handler].
    destruct (sighandler_eqb (sa_handler (disposition st (signo sig))) SIG_DFL)
      eqn:Eq; [discriminate|].
    intros Hd. rewrite Hd in Eq. discriminate Eq.
Qed.

(** X17.  Constructing a second object changes no disposition: what the
    first construction left is left again. *)
Theorem constructor_is_idempotent
        {lib : SignalLibrary} (st st' : SignalState) :
  SampleHeap_ctor st = Some st' ->
  exists st'',
    SampleHeap_ctor st' = Some st'' /\
    forall n, disposition st'' n = disposition st' n.
Proof.
  intros E.
  assert (El : signal_init_lock st = false).
  { unfold SampleHeap_ctor, lock in E.
    destruct (signal_init_lock st); [discriminate E | reflexivity]. }
  destruct (SampleHeap_ctor_dispositions st El) as (st1 & E1 & El1 & Ed1).
  rewrite E in E1. inversion E1; subst st1.
  destruct (SampleHeap_ctor_dispositions st' El1) as (st'' & E2 & _ & Ed2).
  exists st''. split; [exact E2|].
  intros n. rewrite Ed2.
  destruct ((n =? signo MallocSignal) || (n =? signo FreeSignal)) eqn:Esig;
    [|reflexivity].
  rewrite Ed1, Esig. cbn [sa_handler]. f_equal.
  destruct (sighandler_eqb (sa_handler (disposition st n)) SIG_DFL) eqn:Eq0;
    [reflexivity|].
  rewrite Eq0. reflexivity.
Qed.

(** * The further properties at work *)

(** X1 at work: three calls, two of them sampled. *)
Lemma run_appends_at_most_one_line_per_call_witness :
  exists new,
    sampleFile (demo_state 1000 16 [Malloc 1000; Malloc 24; Free 8192]) =
      sampleFile (demo_fresh (Some (fun _ => Some here))) ++ new /\
    (List.length new <= 3)%nat.
Proof.
  apply (run_appends_at_most_one_line_per_call
           (mallocSamplerOps := RateSampler 1000)
           (freeSamplerOps := RateSampler 1)
           (superOps := Arena 16 (2 ^ 32)) (env := unix)
           [Malloc 1000; Malloc 24; Free 8192]).
  vm_compute. reflexivity.
Defined.

(** X2 at work: two lines, two malloc signals. *)
Lemma signals_raised_match_lines_written_witness :
  raised (demo_state 1000 16 [Malloc 1000; Malloc 24; Free 8192]) =
    [] ++ repeat MallocSignal 2.
Proof.
  apply (signals_raised_match_lines_written
           (mallocSamplerOps := RateSampler 1000)
           (freeSamplerOps := RateSampler 1)
           (superOps := Arena 16 (2 ^ 32)) (env := unix)
           [Malloc 1000; Malloc 24; Free 8192]
           (demo_fresh (Some (fun _ => Some here)))
           (demo_state 1000 16 [Malloc 1000; Malloc 24; Free 8192])
           (sampleFile (demo_state 1000 16 [Malloc 1000; Malloc 24; Free 8192]))).
  - vm_compute. reflexivity.
  - vm_compute. reflexivity.
Defined.

(** X3 at work: the two lines are numbered 0 and 1. *)
Lemma lines_are_numbered_consecutively_witness :
  map line_seq
      (sampleFile (demo_state 1000 16 [Malloc 1000; Malloc 24; Free 8192])) =
    map (fun i => wrap64 (0 + 0 + Z.of_nat i)) (seq 0 2).
Proof.
  apply (lines_are_numbered_consecutively
           (mallocSamplerOps := RateSampler 1000)
           (freeSamplerOps := RateSampler 1)
           (superOps := Arena 16 (2 ^ 32)) (env := unix)
           [Malloc 1000; Malloc 24; Free 8192]
           (demo_fresh (Some (fun _ => Some here)))
           (demo_state 1000 16 [Malloc 1000; Malloc 24; Free 8192])).
  - vm_compute. reflexivity.
  - vm_compute. reflexivity.
Defined.

(** X4 at work: one line of kind [M], one of another kind. *)
Lemma trigger_counters_count_lines_by_kind_witness :
  wrap64 (mallocTriggered
            (demo_state 1000 16 [Malloc 1000; Malloc 24; Free 8192])) =
    wrap64 (0 + Z.of_nat 1) /\
  wrap64 (freeTriggered
            (demo_state 1000 16 [Malloc 1000; Malloc 24; Free 8192])) =
    wrap64 (0 + Z.of_nat 1).
Proof.
  apply (trigger_counters_count_lines_by_kind
           (mallocSamplerOps := RateSampler 1000)
           (freeSamplerOps := RateSampler 1)
           (superOps := Arena 16 (2 ^ 32)) (env := unix)
           [Malloc 1000; Malloc 24; Free 8192]
           (demo_fresh (Some (fun _ => Some here)))
           (demo_state 1000 16 [Malloc 1000; Malloc 24; Free 8192])
           (sampleFile (demo_state 1000 16 [Malloc 1000; Malloc 24; Free 8192]))).
  - vm_compute. reflexivity.
  - vm_compute. reflexivity.
Defined.

(** X5 at work: the same calls, every one sampled, with no resolver. *)
Lemma no_resolver_no_output_witness :
  let s' :=
    final (demo_run_unresolved [Malloc 1000; Malloc 24; Free 8192])
          (demo_fresh None) in
  sampleFile s' = [] /\ raised s' = [] /\
  mallocTriggered s' = 0 /\ freeTriggered s' = 0 /\
  _lastMallocTrigger s' = nullptr.
Proof.
  intros s'.
  apply (no_resolver_no_output
           (mallocSamplerOps := RateSampler 1)
           (freeSamplerOps := RateSampler 1)
           (superOps := Arena 16 (2 ^ 32)) (env := unix)
           [Malloc 1000; Malloc 24; Free 8192] (demo_fresh None) s').
  - left. reflexivity.
  - vm_compute. reflexivity.
Defined.

(** X6 at work: the line of a sampled [free]. *)
Lemma line_carries_pid_and_kind_of_call_witness :
  exists l,
    sampleFile (demo_state 1 16 [Malloc 1000; Free 4096]) =
      sampleFile (demo_state 1 16 [Malloc 1000]) ++ [l] /\
    line_pid l = 4242 /\
    (line_kind l = "f"%char \/ line_kind l = "F"%char).
Proof.
  eexists. split; [vm_compute; reflexivity|].
  match goal with
  | |- line_pid ?l = _ /\ _ =>
      apply (line_carries_pid_and_kind_of_call
               (mallocSamplerOps := RateSampler 1)
               (freeSamplerOps := RateSampler 1)
               (superOps := Arena 16 (2 ^ 32)) (env := unix)
               (Free 4096)
               (demo_state 1 16 [Malloc 1000])
               (demo_state 1 16 [Malloc 1000; Free 4096]) l
               ltac:(vm_compute; reflexivity)
               ltac:(vm_compute; reflexivity))
  end.
Defined.

(** X7 at work: calls made while the marker is set. *)
Lemma nested_calls_skip_sampling_witness :
  demo_malloc 1 16 1000 (set_inMalloc true (demo_fresh None)) =
    Done 4096
         (set_super (snd (arena_malloc 16 (2 ^ 32) arena0 1000))
                    (set_inMalloc true (demo_fresh None))) /\
  demo_free 1 16 4096 (set_inMalloc true (demo_state 1 16 [Malloc 1000])) =
    Done tt
         (set_super (arena_free (super (demo_state 1 16 [Malloc 1000])) 4096)
                    (set_inMalloc true (demo_state 1 16 [Malloc 1000]))).
Proof.
  split.
  - apply (proj1 (nested_calls_skip_sampling
                    (mallocSamplerOps := RateSampler 1)
                    (freeSamplerOps := RateSampler 1)
                    (superOps := Arena 16 (2 ^ 32)) (env := unix)
                    (set_inMalloc true (demo_fresh None))
                    ltac:(reflexivity))).
  - apply (proj2 (proj2 (nested_calls_skip_sampling
                    (mallocSamplerOps := RateSampler 1)
                    (freeSamplerOps := RateSampler 1)
                    (superOps := Arena 16 (2 ^ 32)) (env := unix)
                    (set_inMalloc true (demo_state 1 16 [Malloc 1000]))
                    ltac:(reflexivity)))).
    unfold nullptr. lia.
Defined.


(** X10 at work: an arena whose blocks have no size. *)
Lemma malloc_of_zero_size_block_is_not_sampled_witness :
  demo_malloc 1 0 0 (demo_fresh None) =
    Done 4096 (set_super (snd (arena_malloc 0 (2 ^ 32) arena0 0))
                         (demo_fresh None)).
Proof.
  apply (malloc_of_zero_size_block_is_not_sampled
           (mallocSamplerOps := RateSampler 1)
           (superOps := Arena 0 (2 ^ 32)) (env := unix)).
  - vm_compute. reflexivity.
  - vm_compute. reflexivity.
Defined.

(** X11 at work: the block at 8192 triggers while the free of 4096 is still
    to be reported; the line of kind [M] carries 4096. *)
Lemma malloc_line_reports_last_trigger_when_flag_set_witness :
  exists s' l,
    register_malloc (mallocSamplerOps := RateSampler 1000) (env := unix)
                    1008 8192 false demo_flagged = Done tt s' /\
    sampleFile s' = sampleFile demo_flagged ++ [l] /\
    line_kind l = "M"%char /\
    line_count l = 1008 /\
    line_address l = 4096.
Proof.
  apply (malloc_line_reports_last_trigger_when_flag_set
           (mallocSamplerOps := RateSampler 1000) (env := unix)
           demo_flagged 1008 8192 false 1008 0 (fun _ => Some here) here).
  - lia.
  - vm_compute. reflexivity.
  - lia.
  - reflexivity.
  - reflexivity.
Defined.


(** X13 at work: the sampled free of the last trigger. *)
Lemma free_trigger_updates_state_witness :
  exists s' l,
    demo_free 1000 16 4096 (demo_state 1000 16 [Malloc 1000; Malloc 24]) =
      Done tt s' /\
    sampleFile s' =
      sampleFile (demo_state 1000 16 [Malloc 1000; Malloc 24]) ++ [l] /\
    line_count l = 1008 /\
    freeTriggered s' = wrap64 (0 + 1) /\
    mallocTriggered s' = 1 /\
    _lastMallocTrigger s' = 4096 /\
    _freedLastMallocTrigger s' = false /\
    _mallocSampler s' = 0 /\
    _freeSampler s' = 0 /\
    super s' =
      arena_free (super (demo_state 1000 16 [Malloc 1000; Malloc 24])) 4096.
Proof.
  apply (free_trigger_updates_state
           (mallocSamplerOps := RateSampler 1000)
           (freeSamplerOps := RateSampler 1)
           (superOps := Arena 16 (2 ^ 32)) (env := unix)
           (demo_state 1000 16 [Malloc 1000; Malloc 24])
           4096 1008 0 (fun _ => Some here) here).
  - unfold nullptr. lia.
  - vm_compute. reflexivity.
  - vm_compute. reflexivity.
  - lia.
  - vm_compute. reflexivity.
  - vm_compute. reflexivity.
Defined.

(** X14 at work: the free sampler fires every 5000 bytes only. *)
Lemma unreported_free_of_last_trigger_sets_flag_witness :
  _freedLastMallocTrigger
    (match free (mallocSamplerOps := RateSampler 1000)
                (freeSamplerOps := RateSampler 5000)
                (superOps := Arena 16 (2 ^ 32)) (env := unix)
                4096 (demo_state 1000 16 [Malloc 1000]) with
     | Done _ s' => s'
     | AssertionFailed => demo_fresh None
     end) = true.
Proof.
  rewrite (unreported_free_of_last_trigger_sets_flag
             (mallocSamplerOps := RateSampler 1000)
             (freeSamplerOps := RateSampler 5000)
             (superOps := Arena 16 (2 ^ 32)) (env := unix)
             (demo_state 1000 16 [Malloc 1000]) 4096 0 1008).
  - vm_compute. reflexivity.
  - unfold nullptr. lia.
  - vm_compute. reflexivity.
  - vm_compute. reflexivity.
  - vm_compute. reflexivity.
  - left. reflexivity.
Defined.

(** X15 at work: a block of 1008 bytes, both samplers firing every 5000. *)
Lemma unsampled_malloc_then_free_restores_sampler_witness :
  exists s',
    run (mallocSamplerOps := RateSampler 5000)
        (freeSamplerOps := RateSampler 5000)
        (superOps := Arena 16 (2 ^ 32)) (env := unix)
        [Malloc 1000; Free 4096] (demo_fresh None) = Done tt s' /\
    _mallocSampler s' = 0 /\ _cCount s' = 1008.
Proof.
  eexists. split.
  - apply (unsampled_malloc_then_free_restores_sampler
             (mallocSamplerOps := RateSampler 5000)
             (freeSamplerOps := RateSampler 5000)
             (superOps := Arena 16 (2 ^ 32)) (env := unix)
             (demo_fresh None) 1000 4096
             (snd (arena_malloc 16 (2 ^ 32) arena0 1000)) 1008 1008).
    + reflexivity.
    + vm_compute. reflexivity.
    + unfold nullptr. lia.
    + vm_compute. reflexivity.
    + vm_compute. reflexivity.
    + vm_compute. reflexivity.
    + vm_compute. reflexivity.
  - split; vm_compute; reflexivity.
Defined.

(** X16 at work: the host has a handler for [SIGXCPU], set with flags and a
    mask of its own, and none for [SIGXFSZ]. *)
Lemma constructor_ignores_default_keeps_handlers_witness :
  exists st',
    SampleHeap_ctor (lib := bsd_signal) host_signals = Some st' /\
    sa_handler (disposition st' (signo MallocSignal)) = handler_at 77 /\
    sa_flags (disposition st' (signo MallocSignal)) = 268435456 /\
    sa_mask (disposition st' (signo MallocSignal)) = [24] /\
    sa_handler (disposition st' (signo FreeSignal)) = SIG_IGN.
Proof.
  destruct (constructor_ignores_default_keeps_handlers
              (lib := bsd_signal) host_signals)
    as (st' & E & _ & Hd & Hk & Hf & _).
  - reflexivity.
  - exists st'. split; [exact E|].
    split; [|split; [|split]].
    + rewrite (Hk MallocSignal); [reflexivity|].
      vm_compute. discriminate.
    + apply (Hf MallocSignal).
    + apply (Hf MallocSignal).
    + apply Hd. reflexivity.
Defined.

(** X17 at work: a second construction in the same process. *)
Lemma constructor_is_idempotent_witness :
  exists st'',
    SampleHeap_ctor (lib := bsd_signal) host_signals_constructed = Some st'' /\
    forall n, disposition st'' n = disposition host_signals_constructed n.
Proof.
  apply (constructor_is_idempotent (lib := bsd_signal) host_signals).
  reflexivity.
Defined.

(** X18 at work: the first line of a process. *)
Lemma fraction_is_never_nan_witness :
  exists s' l,
    writeCount (env := unix) MallocSignal 1008 4096 here (demo_fresh None) =
      Done tt s' /\
    sampleFile s' = [l] /\
    line_fraction l <> S754_nan.
Proof.
  destruct (fraction_is_never_nan (env := unix) MallocSignal 1008 4096 here
                                  (demo_fresh None))
    as (s' & l & E & El & Hn & _).
  - cbn. lia.
  - exists s', l. split; [exact E|]. split; [exact El | exact Hn].
Defined.
